(** * lidario: the streaming (LAZ) backend

    A shallow embedding of [laszip_wrapper.go] and [lazfile.go]: the cgo
    adapter around the LASzip C API ([LaszipReader]) and the file handle
    built on top of it ([LazFile]).

    The LASzip library itself is foreign code.  It is represented by the
    answers it gives: a return code for every call, as a function of the
    calls made so far, plus the contents of the memory it hands out.  The
    Go code is then a program in a small monad that records every native
    call in a trace and can crash on a nil dereference.

    The file type detection of [file_detection.go] is embedded in the same
    way, over the answers of the operating system. *)

From Stdlib Require Import ZArith String Ascii List Bool Lia.
From Stdlib Require Import DecimalString.
Import ListNotations.

Local Open Scope string_scope.
Local Open Scope Z_scope.

(** ** Go scalar types *)

(** Fixed-width integers are carried as [Z]; a conversion wraps. *)
Definition uint8 (x : Z) : Z := x mod 2 ^ 8.
Definition uint16 (x : Z) : Z := x mod 2 ^ 16.
Definition uint32 (x : Z) : Z := x mod 2 ^ 32.
Definition uint64 (x : Z) : Z := x mod 2 ^ 64.
Definition int8 (x : Z) : Z := (x + 2 ^ 7) mod 2 ^ 8 - 2 ^ 7.
Definition int (x : Z) : Z := (x + 2 ^ 63) mod 2 ^ 64 - 2 ^ 63.
Definition byte (x : Z) : Z := uint8 x.

Definition is_uint8 (x : Z) : Prop := 0 <= x < 2 ^ 8.

(** A [float64] is carried as the 64 bits of its IEEE-754 encoding: the
    code under study only copies floating point values around. *)
Definition float64 : Type := Z.
Definition float64_zero : float64 := 0.

(** A Go [error] is its message; [nil] is [None]. *)
Definition error : Type := option string.

(** The Go idiom [(T, error)], with [T] nil exactly when the error is set. *)
Inductive result (A : Type) : Type :=
| Ok (a : A)
| Err (msg : string).
Arguments Ok {A} a.
Arguments Err {A} msg.

Definition is_ok {A : Type} (r : result A) : bool :=
  match r with Ok _ => true | Err _ => false end.

(** ** The LASzip C API *)

(** The fields of [laszip_header_struct] that the adapter reads. *)
Module laszip_header_struct.
Record t : Type := mk {
  version_major : Z;
  version_minor : Z;
  header_size : Z;
  offset_to_point_data : Z;
  number_of_variable_length_records : Z;
  point_data_format : Z;
  point_data_record_length : Z;
  number_of_point_records : Z;
  x_scale_factor : float64;
  y_scale_factor : float64;
  z_scale_factor : float64;
  x_offset : float64;
  y_offset : float64;
  z_offset : float64;
  max_x : float64;
  min_x : float64;
  max_y : float64;
  min_y : float64;
  max_z : float64;
  min_z : float64
}.
End laszip_header_struct.

(** The fields of [laszip_point_struct] that the adapter reads. *)
Module laszip_point_struct.
Record t : Type := mk {
  intensity : Z;
  scan_angle_rank : Z;
  user_data : Z;
  point_source_ID : Z;
  gps_time : float64
}.
End laszip_point_struct.

(** The native entry points called through cgo. *)
Inductive ccall : Type :=
| laszip_create
| laszip_get_error
| laszip_open_reader (filename : string)
| laszip_get_header_pointer
| laszip_get_point_pointer
| laszip_read_point
| laszip_get_coordinates
| laszip_close_reader
| laszip_destroy.

(** The calls made so far, most recent first. *)
Definition trace : Type := list ccall.

(** What the native library answers.  [rc t c] is the return code of the
    call [c] issued after the calls [t]; the other fields describe the
    memory visible after the calls [t]: whether the out-pointers written by
    [laszip_create], [laszip_get_header_pointer] and
    [laszip_get_point_pointer] are non-NULL, the message stored by
    [laszip_get_error] (NULL is [None]), the triple written by
    [laszip_get_coordinates], and the header and point structures owned by
    the decoder. *)
Record laszip : Type := {
  rc : trace -> ccall -> Z;
  pointer_out : trace -> bool;
  header_out : trace -> bool;
  point_out : trace -> bool;
  error_out : trace -> option string;
  coordinates_out : trace -> float64 * float64 * float64;
  header_mem : trace -> laszip_header_struct.t;
  point_mem : trace -> laszip_point_struct.t
}.

Definition is_read_point (c : ccall) : bool :=
  match c with laszip_read_point => true | _ => false end.
Definition is_create (c : ccall) : bool :=
  match c with laszip_create => true | _ => false end.
Definition is_close_reader (c : ccall) : bool :=
  match c with laszip_close_reader => true | _ => false end.
Definition is_destroy (c : ccall) : bool :=
  match c with laszip_destroy => true | _ => false end.

(** How many calls of a kind a trace holds. *)
Definition calls (p : ccall -> bool) (t : trace) : nat :=
  List.length (List.filter p t).

(** ** Programs over the native library *)

(** A run either returns a value or crashes (nil dereference); in both
    cases the native calls made up to that point are known. *)
Inductive outcome (A : Type) : Type :=
| Returns (a : A) (t : trace)
| Crashes (t : trace).
Arguments Returns {A} a t.
Arguments Crashes {A} t.

Definition trace_of {A : Type} (o : outcome A) : trace :=
  match o with Returns _ t => t | Crashes t => t end.

Definition cgo (A : Type) : Type := trace -> outcome A.

Definition ret {A : Type} (a : A) : cgo A := fun t => Returns a t.

Definition bind {A B : Type} (m : cgo A) (k : A -> cgo B) : cgo B :=
  fun t => match m t with
           | Returns a t' => k a t'
           | Crashes t' => Crashes t'
           end.

Definition crash {A : Type} : cgo A := fun t => Crashes t.

Declare Scope cgo_scope.
Delimit Scope cgo_scope with cgo.
Notation "x <- m ;; k" := (bind m (fun x => k))
  (at level 61, m at next level, right associativity) : cgo_scope.
Notation "m ;;; k" := (bind m (fun _ => k))
  (at level 61, right associativity) : cgo_scope.
Local Open Scope cgo_scope.

(** ** laszip_wrapper.go: data *)

(** [LaszipReader].  The three C pointers are represented by whether they
    are non-nil: there is one decoder object per reader, and its memory is
    read through [header_mem] and [point_mem]. *)
Module LaszipReader.
Record t : Type := mk {
  pointer : bool;
  header : bool;
  point : bool;
  isOpen : bool;
  pointCount : Z;
  currentPoint : Z
}.

Definition zero : t := mk false false false false 0 0.

Definition with_pointer (v : bool) (r : t) : t :=
  mk v (header r) (point r) (isOpen r) (pointCount r) (currentPoint r).
Definition with_header (v : bool) (r : t) : t :=
  mk (pointer r) v (point r) (isOpen r) (pointCount r) (currentPoint r).
Definition with_point (v : bool) (r : t) : t :=
  mk (pointer r) (header r) v (isOpen r) (pointCount r) (currentPoint r).
Definition with_isOpen (v : bool) (r : t) : t :=
  mk (pointer r) (header r) (point r) v (pointCount r) (currentPoint r).
Definition with_pointCount (v : Z) (r : t) : t :=
  mk (pointer r) (header r) (point r) (isOpen r) v (currentPoint r).
Definition with_currentPoint (v : Z) (r : t) : t :=
  mk (pointer r) (header r) (point r) (isOpen r) (pointCount r) v.
End LaszipReader.

(** [LaszipPoint]: a point as the adapter hands it to [LazFile]. *)
Module LaszipPoint.
Record t : Type := mk {
  X : float64;
  Y : float64;
  Z : float64;
  Intensity : BinNums.Z;
  ReturnNumber : BinNums.Z;
  NumberOfReturns : BinNums.Z;
  ScanDirectionFlag : BinNums.Z;
  EdgeOfFlightFlag : BinNums.Z;
  Classification : BinNums.Z;
  ScanAngleRank : BinNums.Z;
  UserData : BinNums.Z;
  PointSourceID : BinNums.Z;
  GPSTime : float64
}.
End LaszipPoint.

(** [LaszipHeader]: the header as the adapter hands it to [LazFile]. *)
Module LaszipHeader.
Record t : Type := mk {
  VersionMajor : Z;
  VersionMinor : Z;
  HeaderSize : Z;
  OffsetToPointData : Z;
  NumberOfVLRs : Z;
  PointDataFormat : Z;
  PointDataRecordLength : Z;
  NumberOfPointRecords : Z;
  XScaleFactor : float64;
  YScaleFactor : float64;
  ZScaleFactor : float64;
  XOffset : float64;
  YOffset : float64;
  ZOffset : float64;
  MaxX : float64;
  MinX : float64;
  MaxY : float64;
  MinY : float64;
  MaxZ : float64;
  MinZ : float64
}.
End LaszipHeader.

(** ** laszip_wrapper.go: operations *)

Section Adapter.

(** The native library the program is linked against. *)
Variable C : laszip.

(** Issue a native call and get its return code. *)
Definition call (c : ccall) : cgo Z :=
  fun t => Returns (rc C t c) (c :: t).

(** Look at native memory without calling anything. *)
Definition peek {A : Type} (f : laszip -> trace -> A) : cgo A :=
  fun t => Returns (f C t) t.

(** [getError]: the last error of LASzip. *)
Definition getError (r : LaszipReader.t) : cgo string :=
  call laszip_get_error ;;;
  cError <- peek error_out ;;
  match cError with
  | Some msg => ret msg
  | None => ret "unknown LASzip error"
  end.

(** [create]: initialise the LASzip pointer. *)
Definition create (r : LaszipReader.t) : cgo (error * LaszipReader.t) :=
  result <- call laszip_create ;;
  p <- peek pointer_out ;;
  let r := LaszipReader.with_pointer p r in
  if negb (result =? 0) then
    if LaszipReader.pointer r then
      call laszip_get_error ;;;
      errorStr <- peek error_out ;;
      match errorStr with
      | Some errorMsg =>
          ret (Some ("failed to create LASzip pointer: " ++ errorMsg), r)
      | None => ret (Some "failed to create LASzip pointer: unknown error", r)
      end
    else ret (Some "failed to create LASzip pointer: unknown error", r)
  else ret (None, r).

(** [NewLaszipReader]. *)
Definition NewLaszipReader : cgo (result LaszipReader.t) :=
  let reader := LaszipReader.zero in
  er <- create reader ;;
  match er with
  | (Some err, _) => ret (Err err)
  | (None, reader) => ret (Ok reader)
  end.

(** [OpenReader].  Reading [number_of_point_records] through a nil header
    pointer is a crash. *)
Definition OpenReader (r : LaszipReader.t) (filename : string)
  : cgo (error * LaszipReader.t) :=
  if LaszipReader.isOpen r then ret (Some "reader already open", r) else
  result <- call (laszip_open_reader filename) ;;
  if negb (result =? 0) then e <- getError r ;; ret (Some e, r) else
  result <- call laszip_get_header_pointer ;;
  h <- peek header_out ;;
  let r := LaszipReader.with_header h r in
  if negb (result =? 0) then e <- getError r ;; ret (Some e, r) else
  result <- call laszip_get_point_pointer ;;
  p <- peek point_out ;;
  let r := LaszipReader.with_point p r in
  if negb (result =? 0) then e <- getError r ;; ret (Some e, r) else
  if negb (LaszipReader.header r) then crash else
  hdr <- peek header_mem ;;
  let r := LaszipReader.with_pointCount
             (uint64 (laszip_header_struct.number_of_point_records hdr)) r in
  let r := LaszipReader.with_currentPoint 0 r in
  let r := LaszipReader.with_isOpen true r in
  ret (None, r).

(** [ReadPoint]: read the next point. *)
Definition ReadPoint (r : LaszipReader.t) : cgo (error * LaszipReader.t) :=
  if negb (LaszipReader.isOpen r) then ret (Some "reader not open", r) else
  if LaszipReader.pointCount r <=? LaszipReader.currentPoint r then
    ret (Some "EOF: no more points", r)
  else
  result <- call laszip_read_point ;;
  if negb (result =? 0) then e <- getError r ;; ret (Some e, r) else
  let r := LaszipReader.with_currentPoint
             (uint64 (LaszipReader.currentPoint r + 1)) r in
  ret (None, r).

(** [GetPoint]: the current point; [None] is the nil result. *)
Definition GetPoint (r : LaszipReader.t) : cgo (option LaszipPoint.t) :=
  if negb (LaszipReader.isOpen r) || negb (LaszipReader.point r) then ret None
  else
  call laszip_get_coordinates ;;;
  coordinates <- peek coordinates_out ;;
  pt <- peek point_mem ;;
  let '(c0, c1, c2) := coordinates in
  ret (Some {|
    LaszipPoint.X := c0;
    LaszipPoint.Y := c1;
    LaszipPoint.Z := c2;
    LaszipPoint.Intensity := uint16 (laszip_point_struct.intensity pt);
    LaszipPoint.ReturnNumber := 1;
    LaszipPoint.NumberOfReturns := 1;
    LaszipPoint.ScanDirectionFlag := 0;
    LaszipPoint.EdgeOfFlightFlag := 0;
    LaszipPoint.Classification := 0;
    LaszipPoint.ScanAngleRank := int8 (laszip_point_struct.scan_angle_rank pt);
    LaszipPoint.UserData := uint8 (laszip_point_struct.user_data pt);
    LaszipPoint.PointSourceID :=
      uint16 (laszip_point_struct.point_source_ID pt);
    LaszipPoint.GPSTime := laszip_point_struct.gps_time pt
  |}).

(** [GetHeader]: the header; [None] is the nil result. *)
Definition GetHeader (r : LaszipReader.t) : cgo (option LaszipHeader.t) :=
  if negb (LaszipReader.isOpen r) || negb (LaszipReader.header r) then ret None
  else
  h <- peek header_mem ;;
  ret (Some {|
    LaszipHeader.VersionMajor := uint8 (laszip_header_struct.version_major h);
    LaszipHeader.VersionMinor := uint8 (laszip_header_struct.version_minor h);
    LaszipHeader.HeaderSize := uint16 (laszip_header_struct.header_size h);
    LaszipHeader.OffsetToPointData :=
      uint32 (laszip_header_struct.offset_to_point_data h);
    LaszipHeader.NumberOfVLRs :=
      uint32 (laszip_header_struct.number_of_variable_length_records h);
    LaszipHeader.PointDataFormat :=
      uint8 (laszip_header_struct.point_data_format h);
    LaszipHeader.PointDataRecordLength :=
      uint16 (laszip_header_struct.point_data_record_length h);
    LaszipHeader.NumberOfPointRecords :=
      uint32 (laszip_header_struct.number_of_point_records h);
    LaszipHeader.XScaleFactor := laszip_header_struct.x_scale_factor h;
    LaszipHeader.YScaleFactor := laszip_header_struct.y_scale_factor h;
    LaszipHeader.ZScaleFactor := laszip_header_struct.z_scale_factor h;
    LaszipHeader.XOffset := laszip_header_struct.x_offset h;
    LaszipHeader.YOffset := laszip_header_struct.y_offset h;
    LaszipHeader.ZOffset := laszip_header_struct.z_offset h;
    LaszipHeader.MaxX := laszip_header_struct.max_x h;
    LaszipHeader.MinX := laszip_header_struct.min_x h;
    LaszipHeader.MaxY := laszip_header_struct.max_y h;
    LaszipHeader.MinY := laszip_header_struct.min_y h;
    LaszipHeader.MaxZ := laszip_header_struct.max_z h;
    LaszipHeader.MinZ := laszip_header_struct.min_z h
  |}).

(** [LaszipReader.Close]. *)
Definition Reader_Close (r : LaszipReader.t) : cgo (error * LaszipReader.t) :=
  if negb (LaszipReader.isOpen r) then ret (None, r) else
  result <- call laszip_close_reader ;;
  if negb (result =? 0) then e <- getError r ;; ret (Some e, r) else
  result <- call laszip_destroy ;;
  if negb (result =? 0) then e <- getError r ;; ret (Some e, r) else
  let r := LaszipReader.with_isOpen false r in
  ret (None, r).

End Adapter.

(** ** The point and header model of the package

    [LasHeader], the bit-field wrappers, [RgbData], the four point records
    and the [LasPointer] interface are declared in files of the package
    that sit next to the two embedded here.  They are given with the
    fields that [lazfile.go] names when it builds them. *)

(** Only the zero value [GlobalEncodingField{}] is ever built. *)
Inductive GlobalEncodingField : Type :=
| GlobalEncodingField_zero.

Module LasHeader.
Record t : Type := mk {
  FileSignature : string;
  FileSourceID : Z;
  GlobalEncoding : GlobalEncodingField;
  ProjectID1 : Z;
  ProjectID2 : Z;
  ProjectID3 : Z;
  ProjectID4 : list Z;
  VersionMajor : Z;
  VersionMinor : Z;
  SystemID : string;
  GeneratingSoftware : string;
  FileCreationDay : Z;
  FileCreationYear : Z;
  HeaderSize : Z;
  OffsetToPoints : Z;
  NumberOfVLRs : Z;
  PointFormatID : Z;
  PointRecordLength : Z;
  NumberPoints : Z;
  NumberPointsByReturn : list Z;
  XScaleFactor : float64;
  YScaleFactor : float64;
  ZScaleFactor : float64;
  XOffset : float64;
  YOffset : float64;
  ZOffset : float64;
  MaxX : float64;
  MinX : float64;
  MaxY : float64;
  MinY : float64;
  MaxZ : float64;
  MinZ : float64
}.

(** The zero value of the struct. *)
Definition zero : t :=
  mk "" 0 GlobalEncodingField_zero 0 0 0 (List.repeat 0 8) 0 0 "" "" 0 0
     0 0 0 0 0 0 (List.repeat 0 5)
     float64_zero float64_zero float64_zero
     float64_zero float64_zero float64_zero
     float64_zero float64_zero float64_zero
     float64_zero float64_zero float64_zero.
End LasHeader.

Module PointBitField.
Record t : Type := mk { Value : Z }.
End PointBitField.

Module ClassificationBitField.
Record t : Type := mk { Value : Z }.
End ClassificationBitField.

Module RgbData.
Record t : Type := mk { Red : Z; Green : Z; Blue : Z }.
End RgbData.

Module PointRecord0.
Record t : Type := mk {
  X : float64;
  Y : float64;
  Z : float64;
  Intensity : BinNums.Z;
  BitField : PointBitField.t;
  ClassBitField : ClassificationBitField.t;
  ScanAngle : BinNums.Z;
  UserData : BinNums.Z;
  PointSourceID : BinNums.Z
}.
End PointRecord0.

Module PointRecord1.
Record t : Type := mk { PointRecord0 : PointRecord0.t; GPSTime : float64 }.
End PointRecord1.

Module PointRecord2.
Record t : Type := mk { PointRecord0 : PointRecord0.t; RGB : RgbData.t }.
End PointRecord2.

Module PointRecord3.
Record t : Type := mk {
  PointRecord0 : PointRecord0.t;
  GPSTime : float64;
  RGB : RgbData.t
}.
End PointRecord3.

(** The values that implement the [LasPointer] interface. *)
Inductive LasPointer : Type :=
| Record0 (p : PointRecord0.t)
| Record1 (p : PointRecord1.t)
| Record2 (p : PointRecord2.t)
| Record3 (p : PointRecord3.t).

(** [PointData]: the core record embedded in every variant. *)
Definition PointData (p : LasPointer) : PointRecord0.t :=
  match p with
  | Record0 p => p
  | Record1 p => PointRecord1.PointRecord0 p
  | Record2 p => PointRecord2.PointRecord0 p
  | Record3 p => PointRecord3.PointRecord0 p
  end.

(** Modelled from the spec: the capability query "has GPS time" of the
    point-record family, whose declaration is not among the embedded files.
    Formats 1 and 3 carry a GPS time, formats 0 and 2 do not. *)
Definition has_gps_time (p : LasPointer) : bool :=
  match p with
  | Record0 _ => false
  | Record1 _ => true
  | Record2 _ => false
  | Record3 _ => true
  end.

(** Modelled from the spec: the capability query "has color" of the
    point-record family, whose declaration is not among the embedded files.
    Formats 2 and 3 carry a color triple, formats 0 and 1 do not. *)
Definition has_color (p : LasPointer) : bool :=
  match p with
  | Record0 _ => false
  | Record1 _ => false
  | Record2 _ => true
  | Record3 _ => true
  end.

(** The color triple of a variant that carries one. *)
Definition color_of (p : LasPointer) : option (Z * Z * Z) :=
  match p with
  | Record0 _ => None
  | Record1 _ => None
  | Record2 p =>
      let c := PointRecord2.RGB p in
      Some (RgbData.Red c, RgbData.Green c, RgbData.Blue c)
  | Record3 p =>
      let c := PointRecord3.RGB p in
      Some (RgbData.Red c, RgbData.Green c, RgbData.Blue c)
  end.

(** ** lazfile.go: data *)

(** [LazFile].  [VlrData], [geokeys] and the embedded lock are left at
    their zero values by every function below and are not represented.
    The reader is held through a pointer; [None] is nil. *)
Module LazFile.
Record t : Type := mk {
  fileName : string;
  fileMode : string;
  reader : option LaszipReader.t;
  Header : LasHeader.t;
  isCompressed : bool;
  currentPoint : Z
}.

Definition with_reader (v : option LaszipReader.t) (lf : t) : t :=
  mk (fileName lf) (fileMode lf) v (Header lf) (isCompressed lf)
     (currentPoint lf).
Definition with_Header (v : LasHeader.t) (lf : t) : t :=
  mk (fileName lf) (fileMode lf) (reader lf) v (isCompressed lf)
     (currentPoint lf).
Definition with_currentPoint (v : Z) (lf : t) : t :=
  mk (fileName lf) (fileMode lf) (reader lf) (Header lf) (isCompressed lf) v.
End LazFile.

(** ** lazfile.go: operations *)

(** [convertPoint]: from the adapter's point to a [LasPointer].  The only
    part of the handle it looks at is the point format of the header. *)
Definition convertPoint (lf : LazFile.t) (lp : LaszipPoint.t) : LasPointer :=
  let x := LaszipPoint.X lp in
  let y := LaszipPoint.Y lp in
  let z := LaszipPoint.Z lp in
  let returnByte :=
    Z.lor (Z.lor (Z.lor (LaszipPoint.ReturnNumber lp)
                        (uint8 (Z.shiftl (LaszipPoint.NumberOfReturns lp) 3)))
                 (uint8 (Z.shiftl (LaszipPoint.ScanDirectionFlag lp) 6)))
          (uint8 (Z.shiftl (LaszipPoint.EdgeOfFlightFlag lp) 7)) in
  let bitField := PointBitField.mk returnByte in
  let classificationByte := LaszipPoint.Classification lp in
  let classificationByte :=
    if negb (Z.land (LaszipPoint.Classification lp) 0x20 =? 0)
    then Z.lor classificationByte 0x20 else classificationByte in
  let classificationByte :=
    if negb (Z.land (LaszipPoint.Classification lp) 0x40 =? 0)
    then Z.lor classificationByte 0x40 else classificationByte in
  let classificationByte :=
    if negb (Z.land (LaszipPoint.Classification lp) 0x80 =? 0)
    then Z.lor classificationByte 0x80 else classificationByte in
  let classBitField := ClassificationBitField.mk classificationByte in
  let pointRecord := {|
    PointRecord0.X := x;
    PointRecord0.Y := y;
    PointRecord0.Z := z;
    PointRecord0.Intensity := LaszipPoint.Intensity lp;
    PointRecord0.BitField := bitField;
    PointRecord0.ClassBitField := classBitField;
    PointRecord0.ScanAngle := LaszipPoint.ScanAngleRank lp;
    PointRecord0.UserData := LaszipPoint.UserData lp;
    PointRecord0.PointSourceID := LaszipPoint.PointSourceID lp
  |} in
  match LasHeader.PointFormatID (LazFile.Header lf) with
  | 0 => Record0 pointRecord
  | 1 => Record1 (PointRecord1.mk pointRecord (LaszipPoint.GPSTime lp))
  | 2 =>
      let rgb := RgbData.mk 0 0 0 in
      Record2 (PointRecord2.mk pointRecord rgb)
  | 3 =>
      let rgb := RgbData.mk 0 0 0 in
      Record3 (PointRecord3.mk pointRecord (LaszipPoint.GPSTime lp) rgb)
  | _ => Record0 pointRecord
  end.

(** [GetPointCount] and [IsCompressed]. *)
Definition GetPointCount (lf : LazFile.t) : Z :=
  uint32 (LasHeader.NumberPoints (LazFile.Header lf)).

Definition IsCompressed (lf : LazFile.t) : bool := LazFile.isCompressed lf.

Section File.

Variable C : laszip.

(** [convertHeader]: from the LASzip header to a [LasHeader].  Calling a
    method that reads a field on a nil reader is a crash. *)
Definition convertHeader (lf : LazFile.t) : cgo (error * LazFile.t) :=
  match LazFile.reader lf with
  | None => crash
  | Some r =>
      h <- GetHeader C r ;;
      match h with
      | None => ret (Some "failed to get LASzip header", lf)
      | Some laszipHeader =>
          let hdr := {|
            LasHeader.FileSignature := "LASF";
            LasHeader.FileSourceID := 0;
            LasHeader.GlobalEncoding := GlobalEncodingField_zero;
            LasHeader.ProjectID1 := 0;
            LasHeader.ProjectID2 := 0;
            LasHeader.ProjectID3 := 0;
            LasHeader.ProjectID4 := List.repeat 0 8;
            LasHeader.VersionMajor :=
              byte (LaszipHeader.VersionMajor laszipHeader);
            LasHeader.VersionMinor :=
              byte (LaszipHeader.VersionMinor laszipHeader);
            LasHeader.SystemID := "";
            LasHeader.GeneratingSoftware := "";
            LasHeader.FileCreationDay := 0;
            LasHeader.FileCreationYear := 0;
            LasHeader.HeaderSize := int (LaszipHeader.HeaderSize laszipHeader);
            LasHeader.OffsetToPoints :=
              int (LaszipHeader.OffsetToPointData laszipHeader);
            LasHeader.NumberOfVLRs :=
              int (LaszipHeader.NumberOfVLRs laszipHeader);
            LasHeader.PointFormatID :=
              byte (LaszipHeader.PointDataFormat laszipHeader);
            LasHeader.PointRecordLength :=
              int (LaszipHeader.PointDataRecordLength laszipHeader);
            LasHeader.NumberPoints :=
              int (LaszipHeader.NumberOfPointRecords laszipHeader);
            LasHeader.NumberPointsByReturn := List.repeat 0 5;
            LasHeader.XScaleFactor := LaszipHeader.XScaleFactor laszipHeader;
            LasHeader.YScaleFactor := LaszipHeader.YScaleFactor laszipHeader;
            LasHeader.ZScaleFactor := LaszipHeader.ZScaleFactor laszipHeader;
            LasHeader.XOffset := LaszipHeader.XOffset laszipHeader;
            LasHeader.YOffset := LaszipHeader.YOffset laszipHeader;
            LasHeader.ZOffset := LaszipHeader.ZOffset laszipHeader;
            LasHeader.MaxX := LaszipHeader.MaxX laszipHeader;
            LasHeader.MinX := LaszipHeader.MinX laszipHeader;
            LasHeader.MaxY := LaszipHeader.MaxY laszipHeader;
            LasHeader.MinY := LaszipHeader.MinY laszipHeader;
            LasHeader.MaxZ := LaszipHeader.MaxZ laszipHeader;
            LasHeader.MinZ := LaszipHeader.MinZ laszipHeader
          |} in
          ret (None, LazFile.with_Header hdr lf)
      end
  end.

(** [NewLazFile].  The local [reader] and [lazFile.reader] are one object:
    the handle is given the reader as [OpenReader] left it. *)
Definition NewLazFile (fileName fileMode : string) : cgo (result LazFile.t) :=
  if negb (fileMode =? "r")%string && negb (fileMode =? "rh")%string then
    ret (Err "LAZ files only support read mode")
  else
  let lazFile := {|
    LazFile.fileName := fileName;
    LazFile.fileMode := fileMode;
    LazFile.reader := None;
    LazFile.Header := LasHeader.zero;
    LazFile.isCompressed := true;
    LazFile.currentPoint := 0
  |} in
  nr <- NewLaszipReader C ;;
  match nr with
  | Err err => ret (Err ("failed to create LASzip reader: " ++ err))
  | Ok reader =>
      er <- OpenReader C reader fileName ;;
      match er with
      | (Some err, _) => ret (Err ("failed to open LAZ file: " ++ err))
      | (None, reader) =>
          let lazFile := LazFile.with_reader (Some reader) lazFile in
          ec <- convertHeader lazFile ;;
          match ec with
          | (Some err, _) =>
              Reader_Close C reader ;;;
              ret (Err ("failed to convert header: " ++ err))
          | (None, lazFile) => ret (Ok lazFile)
          end
      end
  end.

(** [LasPoint]: read the point at [pointIndex].  The lock taken on entry
    and released on exit has no effect on a single caller. *)
Definition LasPoint (lf : LazFile.t) (pointIndex : Z)
  : cgo (result LasPointer * LazFile.t) :=
  if (pointIndex <? 0)
     || (int (LasHeader.NumberPoints (LazFile.Header lf)) <=? pointIndex)
  then ret (Err "point index out of range", lf) else
  if negb (pointIndex =? LazFile.currentPoint lf) then
    ret (Err "random access not yet implemented for LAZ files", lf)
  else
  match LazFile.reader lf with
  | None => crash
  | Some r =>
      er <- ReadPoint C r ;;
      match er with
      | (Some err, r) =>
          ret (Err ("failed to read point: " ++ err),
               LazFile.with_reader (Some r) lf)
      | (None, r) =>
          let lf := LazFile.with_reader (Some r) lf in
          laszipPoint <- GetPoint C r ;;
          match laszipPoint with
          | None => ret (Err "failed to get point data", lf)
          | Some laszipPoint =>
              let lf :=
                LazFile.with_currentPoint (int (LazFile.currentPoint lf + 1))
                                          lf in
              ret (Ok (convertPoint lf laszipPoint), lf)
          end
      end
  end.

(** [GetXYZ]: the coordinates of a point. *)
Definition GetXYZ (lf : LazFile.t) (pointIndex : Z)
  : cgo (result (float64 * float64 * float64) * LazFile.t) :=
  pe <- LasPoint lf pointIndex ;;
  match pe with
  | (Err err, lf) => ret (Err err, lf)
  | (Ok point, lf) =>
      let pointData := PointData point in
      ret (Ok (PointRecord0.X pointData, PointRecord0.Y pointData,
               PointRecord0.Z pointData), lf)
  end.

(** [Close]: close the LAZ file. *)
Definition Close (lf : LazFile.t) : cgo (error * LazFile.t) :=
  match LazFile.reader lf with
  | Some r =>
      er <- Reader_Close C r ;;
      let '(e, r) := er in
      ret (e, LazFile.with_reader (Some r) lf)
  | None => ret (None, lf)
  end.

End File.

(** ** Reading error messages *)

(** [contains needle hay]: [needle] occurs in [hay]. *)
Fixpoint contains (needle hay : string) : bool :=
  match hay with
  | EmptyString => prefix needle hay
  | String _ rest => prefix needle hay || contains needle rest
  end.

(** The decimal rendering of an index, as [%d] prints it. *)
Definition decimal (n : Z) : string := NilZero.string_of_int (Z.to_int n).

(** A message names an index when the index is printed somewhere in it. *)
Definition names_index (msg : string) (n : Z) : bool :=
  contains (decimal n) msg.

(** ** Driving a handle *)

(** Read the points at the given indices one after the other, as the loop
    of [TestLazFileReading] does, keeping every answer. *)
Fixpoint reads (C : laszip) (lf : LazFile.t) (indices : list Z)
  : cgo (list (result LasPointer) * LazFile.t) :=
  match indices with
  | [] => ret ([], lf)
  | i :: rest =>
      pe <- LasPoint C lf i ;;
      let '(p, lf) := pe in
      pr <- reads C lf rest ;;
      let '(ps, lf) := pr in
      ret (p :: ps, lf)
  end.

(** ** Sample native libraries *)

(** A header with the given point format, point count, record length and
    scale factor on the three axes; version 1.2, 227 bytes. *)
Definition sample_header (format count length : Z) (scale : float64)
  : laszip_header_struct.t := {|
  laszip_header_struct.version_major := 1;
  laszip_header_struct.version_minor := 2;
  laszip_header_struct.header_size := 227;
  laszip_header_struct.offset_to_point_data := 227;
  laszip_header_struct.number_of_variable_length_records := 0;
  laszip_header_struct.point_data_format := format;
  laszip_header_struct.point_data_record_length := length;
  laszip_header_struct.number_of_point_records := count;
  laszip_header_struct.x_scale_factor := scale;
  laszip_header_struct.y_scale_factor := scale;
  laszip_header_struct.z_scale_factor := scale;
  laszip_header_struct.x_offset := 0;
  laszip_header_struct.y_offset := 0;
  laszip_header_struct.z_offset := 0;
  laszip_header_struct.max_x := 0;
  laszip_header_struct.min_x := 0;
  laszip_header_struct.max_y := 0;
  laszip_header_struct.min_y := 0;
  laszip_header_struct.max_z := 0;
  laszip_header_struct.min_z := 0
|}.

(** The bits of the float64 0.01. *)
Definition scale_001 : float64 := 0x3F847AE147AE147B.

(** A decoder over the given header.  A call fails (code 1, message
    ["laszip: failure"]) when [fails] says so; every pointer it hands out
    is valid; after [k] reads the current point carries [k] in its
    coordinates and fields, and 0xE5 as user data. *)
Definition decoder (hdr : laszip_header_struct.t)
    (fails : trace -> ccall -> bool) : laszip := {|
  rc := fun t c => if fails t c then 1 else 0;
  pointer_out := fun _ => true;
  header_out := fun _ => true;
  point_out := fun _ => true;
  error_out := fun _ => Some "laszip: failure";
  coordinates_out := fun t =>
    let k := Z.of_nat (calls is_read_point t) in (k, k, k);
  header_mem := fun _ => hdr;
  point_mem := fun t =>
    let k := Z.of_nat (calls is_read_point t) in
    {| laszip_point_struct.intensity := k;
       laszip_point_struct.scan_angle_rank := k;
       laszip_point_struct.user_data := 0xE5;
       laszip_point_struct.point_source_ID := k;
       laszip_point_struct.gps_time := k |}
|}.

Definition never (t : trace) (c : ccall) : bool := false.

(** A decoder that works, on a file of ten points of the given format. *)
Definition healthy (format : Z) : laszip :=
  decoder (sample_header format 10 34 scale_001) never.

(** A decoder for which the file cannot be opened. *)
Definition unopenable : laszip :=
  decoder (sample_header 0 10 20 scale_001)
          (fun _ c => match c with laszip_open_reader _ => true | _ => false end).

(** A decoder whose [laszip_destroy] reports a failure. *)
Definition undestroyable : laszip :=
  decoder (sample_header 0 10 20 scale_001) (fun _ c => is_destroy c).

(** A decoder that fails to decode any point. *)
Definition unreadable : laszip :=
  decoder (sample_header 0 10 20 scale_001) (fun _ c => is_read_point c).

(** A decoder whose file has a header no reader should accept: point
    format 7, zero scale factors, and records of one byte. *)
Definition malformed : laszip :=
  decoder (sample_header 7 10 1 float64_zero) never.

(** The header [convertHeader] builds from [sample_header]. *)
Definition sample_LasHeader (format count length : Z) (scale : float64)
  : LasHeader.t := {|
  LasHeader.FileSignature := "LASF";
  LasHeader.FileSourceID := 0;
  LasHeader.GlobalEncoding := GlobalEncodingField_zero;
  LasHeader.ProjectID1 := 0;
  LasHeader.ProjectID2 := 0;
  LasHeader.ProjectID3 := 0;
  LasHeader.ProjectID4 := [0; 0; 0; 0; 0; 0; 0; 0];
  LasHeader.VersionMajor := 1;
  LasHeader.VersionMinor := 2;
  LasHeader.SystemID := "";
  LasHeader.GeneratingSoftware := "";
  LasHeader.FileCreationDay := 0;
  LasHeader.FileCreationYear := 0;
  LasHeader.HeaderSize := 227;
  LasHeader.OffsetToPoints := 227;
  LasHeader.NumberOfVLRs := 0;
  LasHeader.PointFormatID := format;
  LasHeader.PointRecordLength := length;
  LasHeader.NumberPoints := count;
  LasHeader.NumberPointsByReturn := [0; 0; 0; 0; 0];
  LasHeader.XScaleFactor := scale;
  LasHeader.YScaleFactor := scale;
  LasHeader.ZScaleFactor := scale;
  LasHeader.XOffset := 0;
  LasHeader.YOffset := 0;
  LasHeader.ZOffset := 0;
  LasHeader.MaxX := 0;
  LasHeader.MinX := 0;
  LasHeader.MaxY := 0;
  LasHeader.MinY := 0;
  LasHeader.MaxZ := 0;
  LasHeader.MinZ := 0
|}.

(** An open reader over ten points that has read [cursor] of them. *)
Definition sample_reader (cursor : Z) : LaszipReader.t := {|
  LaszipReader.pointer := true;
  LaszipReader.header := true;
  LaszipReader.point := true;
  LaszipReader.isOpen := true;
  LaszipReader.pointCount := 10;
  LaszipReader.currentPoint := cursor
|}.

(** The handle on "cloud.laz" with the given header, [cursor] points in. *)
Definition sample_handle (hdr : LasHeader.t) (cursor : Z) : LazFile.t := {|
  LazFile.fileName := "cloud.laz";
  LazFile.fileMode := "r";
  LazFile.reader := Some (sample_reader cursor);
  LazFile.Header := hdr;
  LazFile.isCompressed := true;
  LazFile.currentPoint := cursor
|}.

(** The handle [NewLazFile] returns over [healthy format]. *)
Definition healthy_handle (format cursor : Z) : LazFile.t :=
  sample_handle (sample_LasHeader format 10 34 scale_001) cursor.

(** The handle [NewLazFile] returns over [unopenable], [undestroyable] and
    [unreadable], whose file holds ten points of format 0. *)
Definition plain_handle (cursor : Z) : LazFile.t :=
  sample_handle (sample_LasHeader 0 10 20 scale_001) cursor.

(** The handle [NewLazFile] returns over [malformed]. *)
Definition malformed_handle (cursor : Z) : LazFile.t :=
  sample_handle (sample_LasHeader 7 10 1 float64_zero) cursor.

(** The native calls of a successful open of "cloud.laz". *)
Definition opening : trace :=
  [laszip_get_point_pointer; laszip_get_header_pointer;
   laszip_open_reader "cloud.laz"; laszip_create].

(** One successful read: the coordinates are fetched after the point. *)
Definition reading : trace := [laszip_get_coordinates; laszip_read_point].

(** ** file_detection.go *)

(** What the package asks of the operating system: [os.Open], one [Read]
    on the file it got, and the deferred [Close].  An open records
    whether it succeeded. *)
Inductive os_event : Type :=
| os_Open (name : string) (ok : bool)
| file_Read (name : string)
| file_Close (name : string).

Definition os_trace : Type := list os_event.

(** What the operating system answers, as a function of the calls made
    so far: whether [os.Open] succeeds on a name, and what a [Read] into
    a fresh buffer delivers, the bytes stored (those beyond the size of
    the buffer are not) and whether the error is non-nil. *)
Record os : Type := {
  open_ok : os_trace -> string -> bool;
  read_out : os_trace -> string -> string * bool
}.

(** [make([]byte, n)]: [n] zero bytes. *)
Fixpoint make_bytes (n : nat) : string :=
  match n with
  | O => EmptyString
  | S n => String Ascii.zero (make_bytes n)
  end.

(** A buffer after a [Read] stored [data] at its start. *)
Fixpoint fill (buf data : string) : string :=
  match buf, data with
  | String _ bs, String d ds => String d (fill bs ds)
  | _, _ => buf
  end.

Definition is_successful_open (e : os_event) : bool :=
  match e with os_Open _ ok => ok | _ => false end.
Definition is_file_Close (e : os_event) : bool :=
  match e with file_Close _ => true | _ => false end.

(** How many files a trace opened, and how many it closed. *)
Definition opened (t : os_trace) : nat :=
  List.length (List.filter is_successful_open t).
Definition closed (t : os_trace) : nat :=
  List.length (List.filter is_file_Close t).

Section Detection.

(** [filepath.Ext] and [strings.ToLower] of the Go library, and the
    operating system underneath. *)
Variable Ext : string -> string.
Variable ToLower : string -> string.
Variable OS : os.

(** [isLazFile]: extension ".laz" and the four magic bytes. *)
Definition isLazFile (filename : string) (t : os_trace) : bool * os_trace :=
  let ext := ToLower (Ext filename) in
  if negb (ext =? ".laz")%string then (false, t) else
  if negb (open_ok OS t filename) then (false, os_Open filename false :: t)
  else
  let t := os_Open filename true :: t in
  let signature := make_bytes 4 in
  let '(data, err) := read_out OS t filename in
  let n := Nat.min (String.length signature) (String.length data) in
  let signature := fill signature data in
  let t := file_Read filename :: t in
  if err || negb (n =? 4)%nat then (false, file_Close filename :: t) else
  ((signature =? "LASF")%string, file_Close filename :: t).

(** [isLasFile]: extension ".las" and the four magic bytes. *)
Definition isLasFile (filename : string) (t : os_trace) : bool * os_trace :=
  let ext := ToLower (Ext filename) in
  if negb (ext =? ".las")%string then (false, t) else
  if negb (open_ok OS t filename) then (false, os_Open filename false :: t)
  else
  let t := os_Open filename true :: t in
  let signature := make_bytes 4 in
  let '(data, err) := read_out OS t filename in
  let n := Nat.min (String.length signature) (String.length data) in
  let signature := fill signature data in
  let t := file_Read filename :: t in
  if err || negb (n =? 4)%nat then (false, file_Close filename :: t) else
  ((signature =? "LASF")%string, file_Close filename :: t).

(** [GetFileType]: the detected file type. *)
Definition GetFileType (filename : string) (t : os_trace)
  : string * os_trace :=
  let '(laz, t) := isLazFile filename t in
  if laz then ("LAZ", t) else
  let '(las, t) := isLasFile filename t in
  if las then ("LAS", t) else
  ("UNKNOWN", t).

End Detection.

(** ** Sample file systems *)

(** [filepath.Ext] on a slash-separated path: from the last dot of the
    last element on.  The scan says [None] while it has met neither a dot
    nor a slash. *)
Fixpoint Ext_scan (path : string) : option string :=
  match path with
  | EmptyString => None
  | String c rest =>
      match Ext_scan rest with
      | Some e => Some e
      | None =>
          if (c =? ".")%char then Some path
          else if (c =? "/")%char then Some EmptyString
          else None
      end
  end.

Definition Ext_slash (path : string) : string :=
  match Ext_scan path with
  | Some e => e
  | None => EmptyString
  end.

(** [strings.ToLower] on a string of ASCII letters, digits and marks. *)
Fixpoint ToLower_ascii (s : string) : string :=
  match s with
  | EmptyString => EmptyString
  | String c rest =>
      let n := nat_of_ascii c in
      String (if (65 <=? n)%nat && (n <=? 90)%nat
              then ascii_of_nat (n + 32) else c)
             (ToLower_ascii rest)
  end.

(** A file system holding the given files: a file that is there opens,
    and a read delivers up to the first four bytes of its contents, with
    an error (end of file) when it is empty. *)
Fixpoint lookup_file (files : list (string * string)) (name : string)
  : option string :=
  match files with
  | [] => None
  | (n, contents) :: rest =>
      if (n =? name)%string then Some contents else lookup_file rest name
  end.

Definition disk (files : list (string * string)) : os := {|
  open_ok := fun _ name =>
    match lookup_file files name with Some _ => true | None => false end;
  read_out := fun _ name =>
    match lookup_file files name with
    | Some contents =>
        (substring 0 4 contents, (String.length contents =? 0)%nat)
    | None => (EmptyString, true)
    end
|}.

(** Three files: a compressed cloud, a text file named as a cloud, and a
    file too short to hold the magic bytes. *)
Definition sample_disk : os :=
  disk [("data/cloud.copc.LAZ", "LASF, then header and points");
        ("data/notes.las", "not a point cloud");
        ("data/short.laz", "LAS")].

(** ** The handle in step with its reader *)

(** A handle is in step when its reader is open on a valid point
    structure, reader and handle agree on the cursor and on the number of
    points, and the cursor lies within the file. *)
Definition in_step (lf : LazFile.t) : bool :=
  match LazFile.reader lf with
  | None => false
  | Some r =>
      LaszipReader.isOpen r
      && LaszipReader.point r
      && (LaszipReader.currentPoint r =? LazFile.currentPoint lf)
      && (LaszipReader.pointCount r
          =? int (LasHeader.NumberPoints (LazFile.Header lf)))
      && (0 <=? LazFile.currentPoint lf)
      && (LazFile.currentPoint lf
          <=? int (LasHeader.NumberPoints (LazFile.Header lf)))
  end.

(** The [n] consecutive indices starting at [c]. *)
Fixpoint indices_from (c : Z) (n : nat) : list Z :=
  match n with
  | O => []
  | S n => c :: indices_from (c + 1) n
  end.

(** How many of the answers are points. *)
Fixpoint count_ok {A : Type} (rs : list (result A)) : Z :=
  match rs with
  | [] => 0
  | Ok _ :: rest => 1 + count_ok rest
  | Err _ :: rest => count_ok rest
  end.

(** A decoder that reports success on every call and yet hands out a
    NULL header pointer. *)
Definition headless : laszip := {|
  rc := rc (healthy 0);
  pointer_out := pointer_out (healthy 0);
  header_out := fun _ => false;
  point_out := point_out (healthy 0);
  error_out := error_out (healthy 0);
  coordinates_out := coordinates_out (healthy 0);
  header_mem := header_mem (healthy 0);
  point_mem := point_mem (healthy 0)
|}.


Definition unclosable : laszip :=
  decoder (sample_header 0 10 20 scale_001) (fun _ c => is_close_reader c).

(** * Properties *)

(** ** Bytes and bits *)

Lemma int_small (x : Z) : - 2 ^ 63 <= x < 2 ^ 63 -> int x = x.
Proof.
  intros H. unfold int.
  rewrite Z.mod_small by lia. lia.
Qed.

Lemma int_range (x : Z) : - 2 ^ 63 <= int x < 2 ^ 63.
Proof.
  unfold int.
  pose proof (Z.mod_pos_bound (x + 2 ^ 63) (2 ^ 64)) as H.
  lia.
Qed.

(** Setting a bit that is already set changes nothing. *)
Lemma lor_bit_set (b : Z) (n : Z) :
  0 <= n -> Z.land b (2 ^ n) <> 0 -> Z.lor b (2 ^ n) = b.
Proof.
  intros Hn Hland.
  assert (Hbit : Z.testbit b n = true).
  { destruct (Z.testbit b n) eqn:E; [reflexivity|].
    exfalso. apply Hland. apply Z.bits_inj'. intros m Hm.
    rewrite Z.land_spec, Z.bits_0, Z.pow2_bits_eqb by assumption.
    destruct (Z.eqb_spec n m) as [->|_].
    - rewrite E. reflexivity.
    - apply andb_false_r. }
  apply Z.bits_inj'. intros m Hm.
  rewrite Z.lor_spec, Z.pow2_bits_eqb by assumption.
  destruct (Z.eqb_spec n m) as [->|_].
  - rewrite Hbit. reflexivity.
  - apply orb_false_r.
Qed.

(** One flag of the classification byte, as [convertPoint] restates it. *)
Lemma restate_flag (b acc : Z) (n : Z) :
  0 <= n -> acc = b ->
  (if negb (Z.land b (2 ^ n) =? 0) then Z.lor acc (2 ^ n) else acc) = b.
Proof.
  intros Hn ->.
  destruct (Z.eqb_spec (Z.land b (2 ^ n)) 0) as [_|Hne]; simpl.
  - reflexivity.
  - apply lor_bit_set; assumption.
Qed.

(** Whatever the format, the variant built by the switch of [convertPoint]
    embeds the core record it was given. *)
Lemma PointData_switch (f : Z) (p0 : PointRecord0.t) (g : float64)
    (c1 c2 : RgbData.t) :
  PointData
    (match f with
     | 0 => Record0 p0
     | 1 => Record1 (PointRecord1.mk p0 g)
     | 2 => Record2 (PointRecord2.mk p0 c1)
     | 3 => Record3 (PointRecord3.mk p0 g c2)
     | _ => Record0 p0
     end) = p0.
Proof.
  destruct f as [|[[|[]|]|[|[]|]|]|]; reflexivity.
Qed.

Lemma convertPoint_classification (lf : LazFile.t) (lp : LaszipPoint.t) :
  ClassificationBitField.Value
    (PointRecord0.ClassBitField (PointData (convertPoint lf lp)))
  = LaszipPoint.Classification lp.
Proof.
  unfold convertPoint. rewrite PointData_switch.
  cbn [PointRecord0.ClassBitField ClassificationBitField.Value].
  change 0x80 with (2 ^ 7). change 0x40 with (2 ^ 6). change 0x20 with (2 ^ 5).
  do 3 (apply restate_flag; [lia|]).
  reflexivity.
Qed.

Lemma convertPoint_return_byte (lf : LazFile.t) (lp : LaszipPoint.t) :
  PointBitField.Value (PointRecord0.BitField (PointData (convertPoint lf lp)))
  = Z.lor (Z.lor (Z.lor (LaszipPoint.ReturnNumber lp)
                        (uint8 (Z.shiftl (LaszipPoint.NumberOfReturns lp) 3)))
                 (uint8 (Z.shiftl (LaszipPoint.ScanDirectionFlag lp) 6)))
          (uint8 (Z.shiftl (LaszipPoint.EdgeOfFlightFlag lp) 7)).
Proof.
  unfold convertPoint. rewrite PointData_switch. reflexivity.
Qed.

(** ** Runs of the adapter *)

Section AdapterFacts.

Variable C : laszip.

Lemma getError_run (r : LaszipReader.t) (t : trace) :
  exists msg, getError C r t = Returns msg (laszip_get_error :: t).
Proof.
  unfold getError. cbv beta iota delta [bind ret call peek].
  destruct (error_out C (laszip_get_error :: t)); eexists; reflexivity.
Qed.

(** [ReadPoint] returns, keeps the reader open or closed as it was, and
    calls [laszip_read_point] at most once. *)
Lemma ReadPoint_run (r : LaszipReader.t) (t : trace) :
  exists e r' t',
    ReadPoint C r t = Returns (e, r') t'
    /\ LaszipReader.isOpen r' = LaszipReader.isOpen r
    /\ LaszipReader.point r' = LaszipReader.point r
    /\ (calls is_read_point t' <= calls is_read_point t + 1)%nat
    /\ (e = None -> LaszipReader.isOpen r = true).
Proof.
  unfold ReadPoint.
  destruct (LaszipReader.isOpen r) eqn:Ho; simpl.
  2:{ exists (Some "reader not open"), r, t. cbv [ret].
      repeat split; auto; try lia; try discriminate. }
  destruct (LaszipReader.pointCount r <=? LaszipReader.currentPoint r).
  { exists (Some "EOF: no more points"), r, t. cbv [ret].
    repeat split; auto; try lia; try discriminate. }
  cbv beta iota delta [bind call].
  destruct (negb (rc C t laszip_read_point =? 0)).
  - destruct (getError_run r (laszip_read_point :: t)) as [msg Hmsg].
    rewrite Hmsg. cbv [ret].
    exists (Some msg), r, (laszip_get_error :: laszip_read_point :: t).
    repeat split; auto; try discriminate.
    unfold calls. simpl. lia.
  - cbv [ret]. eexists None, _, (laszip_read_point :: t).
    repeat split; auto.
    unfold calls. simpl. lia.
Qed.


(** [GetPoint] returns, never reads a point, and fills the return and
    classification fields with constants. *)
Lemma GetPoint_run (r : LaszipReader.t) (t : trace) :
  exists lp t',
    GetPoint C r t = Returns lp t'
    /\ calls is_read_point t' = calls is_read_point t
    /\ forall p, lp = Some p ->
         LaszipPoint.ReturnNumber p = 1
         /\ LaszipPoint.NumberOfReturns p = 1
         /\ LaszipPoint.ScanDirectionFlag p = 0
         /\ LaszipPoint.EdgeOfFlightFlag p = 0
         /\ LaszipPoint.Classification p = 0.
Proof.
  unfold GetPoint.
  destruct (negb (LaszipReader.isOpen r) || negb (LaszipReader.point r)).
  - exists None, t. cbv [ret]. repeat split; auto; try discriminate.
  - cbv beta iota delta [bind call peek ret].
    destruct (coordinates_out C (laszip_get_coordinates :: t)) as [[c0 c1] c2].
    eexists (Some _), (laszip_get_coordinates :: t).
    split; [reflexivity|]. split; [reflexivity|].
    intros p Hp. injection Hp as <-. cbn. repeat split; reflexivity.
Qed.

End AdapterFacts.

(** ** Runs of the handle *)

Section FileFacts.

Variable C : laszip.


Lemma LasPoint_out_of_order (lf : LazFile.t) (i : Z) (t : trace) :
  0 <= i < int (LasHeader.NumberPoints (LazFile.Header lf)) ->
  i <> LazFile.currentPoint lf ->
  LasPoint C lf i t
  = Returns (Err "random access not yet implemented for LAZ files", lf) t.
Proof.
  intros Hr Hne. unfold LasPoint.
  destruct (Z.ltb_spec i 0) as [Hlt|Hge]; [lia|].
  destruct (Z.leb_spec (int (LasHeader.NumberPoints (LazFile.Header lf))) i);
    [lia|].
  destruct (Z.eqb_spec i (LazFile.currentPoint lf)); [contradiction|].
  reflexivity.
Qed.

(** What a run of [LasPoint] that returns can look like: either it fails
    and the cursor is where it was, or it succeeds, the index was the
    cursor and in range, the cursor moved by one, and the point is the
    conversion of a point whose return and classification fields are the
    constants of [GetPoint].  At most one point is read from the decoder. *)
Lemma LasPoint_returns (lf lf' : LazFile.t) (i : Z) (t t' : trace)
    (res : result LasPointer) :
  LasPoint C lf i t = Returns (res, lf') t' ->
  LazFile.Header lf' = LazFile.Header lf
  /\ (calls is_read_point t' <= calls is_read_point t + 1)%nat
  /\ match res with
     | Err _ => LazFile.currentPoint lf' = LazFile.currentPoint lf
     | Ok p =>
         0 <= i < int (LasHeader.NumberPoints (LazFile.Header lf))
         /\ i = LazFile.currentPoint lf
         /\ LazFile.currentPoint lf' = int (i + 1)
         /\ exists lp,
              p = convertPoint lf' lp
              /\ LaszipPoint.ReturnNumber lp = 1
              /\ LaszipPoint.NumberOfReturns lp = 1
              /\ LaszipPoint.ScanDirectionFlag lp = 0
              /\ LaszipPoint.EdgeOfFlightFlag lp = 0
              /\ LaszipPoint.Classification lp = 0
     end.
Proof.
  intros H. unfold LasPoint in H.
  destruct (Z.ltb_spec i 0) as [Hlt|Hge]; cbn [orb] in H.
  { injection H as <- <- <-. repeat split; lia. }
  destruct (Z.leb_spec (int (LasHeader.NumberPoints (LazFile.Header lf))) i)
    as [Hle|Hlt].
  { injection H as <- <- <-. repeat split; lia. }
  destruct (Z.eqb_spec i (LazFile.currentPoint lf)) as [Heq|Hne];
    cbn [negb] in H.
  2:{ injection H as <- <- <-. repeat split; lia. }
  destruct (LazFile.reader lf) as [r|]; [|discriminate H].
  cbv beta iota delta [bind] in H.
  destruct (ReadPoint_run C r t) as (e & r1 & t1 & Hrp & _ & _ & Hn1 & _).
  rewrite Hrp in H.
  destruct e as [err|].
  { injection H as <- <- <-. repeat split; exact Hn1. }
  destruct (GetPoint_run C r1 t1) as (lp & t2 & Hgp & Hn2 & Hconst).
  rewrite Hgp in H.
  destruct lp as [lp|].
  2:{ injection H as <- <- <-. repeat split; lia. }
  injection H as <- <- <-.
  split; [reflexivity|]. split; [lia|].
  split; [lia|]. split; [exact Heq|]. split; [rewrite Heq; reflexivity|].
  exists lp. split; [reflexivity|]. apply Hconst. reflexivity.
Qed.

(** [LaszipReader.Close] when both native release calls succeed. *)
Lemma Reader_Close_released (r : LaszipReader.t) (t : trace) :
  LaszipReader.isOpen r = true ->
  rc C t laszip_close_reader = 0 ->
  rc C (laszip_close_reader :: t) laszip_destroy = 0 ->
  Reader_Close C r t
  = Returns (None, LaszipReader.with_isOpen false r)
            (laszip_destroy :: laszip_close_reader :: t).
Proof.
  intros Ho Hc Hd. unfold Reader_Close. rewrite Ho.
  cbv beta iota delta [bind call negb]. rewrite Hc.
  cbv beta iota delta [Z.eqb]. rewrite Hd. reflexivity.
Qed.

(** [LaszipReader.Close] on a reader that is not open. *)
Lemma Reader_Close_closed (r : LaszipReader.t) (t : trace) :
  LaszipReader.isOpen r = false ->
  Reader_Close C r t = Returns (None, r) t.
Proof.
  intros Ho. unfold Reader_Close. rewrite Ho. reflexivity.
Qed.

End FileFacts.

(** ** Opening *)

Section OpenFacts.

Variable C : laszip.

(** A successful [OpenReader] leaves the reader open, with a header
    pointer that is not nil, after three more native calls. *)
Lemma OpenReader_opened (r r1 : LaszipReader.t) (fileName : string)
    (t t1 : trace) :
  OpenReader C r fileName t = Returns (None, r1) t1 ->
  LaszipReader.isOpen r1 = true
  /\ LaszipReader.header r1 = true
  /\ t1 = laszip_get_point_pointer :: laszip_get_header_pointer
          :: laszip_open_reader fileName :: t.
Proof.
  unfold OpenReader.
  destruct (LaszipReader.isOpen r); [discriminate|].
  cbv beta iota zeta delta [bind call peek].
  destruct (negb (rc C t (laszip_open_reader fileName) =? 0)).
  { destruct (getError_run C r (laszip_open_reader fileName :: t)) as [m ->].
    discriminate. }
  set (t' := laszip_open_reader fileName :: t).
  destruct (negb (rc C t' laszip_get_header_pointer =? 0)).
  { match goal with |- context [getError C ?x ?y] =>
      destruct (getError_run C x y) as [m ->] end.
    discriminate. }
  set (t'' := laszip_get_header_pointer :: t').
  destruct (negb (rc C t'' laszip_get_point_pointer =? 0)).
  { match goal with |- context [getError C ?x ?y] =>
      destruct (getError_run C x y) as [m ->] end.
    discriminate. }
  cbn [LaszipReader.header LaszipReader.with_point LaszipReader.with_header].
  destruct (header_out C t'') eqn:Hh; cbn [negb]; [|discriminate].
  cbv [ret]. intros H. injection H as <- <-.
  subst t'' t'. repeat split.
Qed.

(** [convertHeader] on an open reader: every value is taken over as the
    decoder reports it. *)
Lemma convertHeader_open (lf : LazFile.t) (r : LaszipReader.t) (t : trace) :
  LazFile.reader lf = Some r ->
  LaszipReader.isOpen r = true ->
  LaszipReader.header r = true ->
  exists lf',
    convertHeader C lf t = Returns (None, lf') t
    /\ LazFile.reader lf' = LazFile.reader lf
    /\ LazFile.currentPoint lf' = LazFile.currentPoint lf
    /\ LasHeader.PointFormatID (LazFile.Header lf')
       = byte (uint8 (laszip_header_struct.point_data_format (header_mem C t)))
    /\ LasHeader.NumberPoints (LazFile.Header lf')
       = int (uint32 (laszip_header_struct.number_of_point_records
                        (header_mem C t)))
    /\ LasHeader.PointRecordLength (LazFile.Header lf')
       = int (uint16 (laszip_header_struct.point_data_record_length
                        (header_mem C t)))
    /\ LasHeader.XScaleFactor (LazFile.Header lf')
       = laszip_header_struct.x_scale_factor (header_mem C t)
    /\ LasHeader.YScaleFactor (LazFile.Header lf')
       = laszip_header_struct.y_scale_factor (header_mem C t)
    /\ LasHeader.ZScaleFactor (LazFile.Header lf')
       = laszip_header_struct.z_scale_factor (header_mem C t).
Proof.
  intros Hr Ho Hh. unfold convertHeader, GetHeader.
  rewrite Hr, Ho, Hh. cbv beta iota zeta delta [bind peek ret negb orb].
  eexists. split; [reflexivity|]. cbn. repeat split; assumption.
Qed.

(** Whatever it returns, and also when it crashes, [OpenReader] neither
    closes nor destroys the decoder. *)
Lemma OpenReader_releases_nothing (r : LaszipReader.t) (fileName : string)
    (t : trace) :
  calls is_close_reader (trace_of (OpenReader C r fileName t))
  = calls is_close_reader t
  /\ calls is_destroy (trace_of (OpenReader C r fileName t))
     = calls is_destroy t.
Proof.
  unfold OpenReader.
  destruct (LaszipReader.isOpen r); [split; reflexivity|].
  cbv beta iota zeta delta [bind call peek].
  repeat match goal with
         | |- context [if negb (rc C ?u ?c =? 0) then _ else _] =>
             destruct (negb (rc C u c =? 0))
         | |- context [getError C ?x ?y] =>
             destruct (getError_run C x y) as [m ->]
         | |- context [if negb (LaszipReader.header ?x) then _ else _] =>
             destruct (negb (LaszipReader.header x))
         end;
    split; reflexivity.
Qed.

(** When the reader is created and [OpenReader] then fails, [NewLazFile]
    returns that failure at once: no native call follows. *)
Lemma NewLazFile_open_error (fileName fileMode err : string)
    (t t0 t1 : trace) (r0 r1 : LaszipReader.t) :
  fileMode = "r" \/ fileMode = "rh" ->
  NewLaszipReader C t = Returns (Ok r0) t0 ->
  OpenReader C r0 fileName t0 = Returns (Some err, r1) t1 ->
  NewLazFile C fileName fileMode t
  = Returns (Err ("failed to open LAZ file: " ++ err)) t1.
Proof.
  intros Hmode Hnew Hopen. unfold NewLazFile.
  assert (Hm : negb (fileMode =? "r")%string
               && negb (fileMode =? "rh")%string = false)
    by (destruct Hmode as [-> | ->]; reflexivity).
  rewrite Hm. cbv beta iota zeta delta [bind].
  rewrite Hnew, Hopen. reflexivity.
Qed.

End OpenFacts.

(** * The claims *)

(** C1, as stated, at a concrete input.  On a freshly opened handle over
    ten points, [LasPoint 5] fails and leaves the handle as it was, but the
    message it fails with does not name the expected index 0. *)
Lemma LasPoint_message_names_no_index :
  NewLazFile (healthy 0) "cloud.laz" "r" []
  = Returns (Ok (healthy_handle 0 0)) opening
  /\ LazFile.currentPoint (healthy_handle 0 0) = 0
  /\ LasPoint (healthy 0) (healthy_handle 0 0) 5 opening
     = Returns (Err "random access not yet implemented for LAZ files",
                healthy_handle 0 0) opening
  /\ names_index "random access not yet implemented for LAZ files" 0 = false.
Proof.
  repeat split.
Qed.

(** C1 (amended).  For an index in range, [LasPoint] succeeds only when
    the index equals the cursor, and the cursor is then the index plus one;
    when the index differs from the cursor it fails with the fixed message
    "random access not yet implemented for LAZ files", which carries no
    index, and leaves the handle and the decoder untouched.  On a fresh
    handle over ten points [LasPoint 5] fails in that way; after the five
    reads at 0..4 have succeeded, [LasPoint 5] succeeds and [LasPoint 4]
    then fails. *)
Theorem LasPoint_sequential (C : laszip) (lf : LazFile.t) (i : Z)
    (t : trace) :
  0 <= i < int (LasHeader.NumberPoints (LazFile.Header lf)) ->
  (forall p lf' t',
      LasPoint C lf i t = Returns (Ok p, lf') t' ->
      i = LazFile.currentPoint lf /\ LazFile.currentPoint lf' = i + 1)
  /\ (i <> LazFile.currentPoint lf ->
      LasPoint C lf i t
      = Returns (Err "random access not yet implemented for LAZ files", lf) t)
  /\ (NewLazFile (healthy 0) "cloud.laz" "r" []
      = Returns (Ok (healthy_handle 0 0)) opening
      /\ LasPoint (healthy 0) (healthy_handle 0 0) 5 opening
         = Returns (Err "random access not yet implemented for LAZ files",
                    healthy_handle 0 0) opening
      /\ exists ps t5 p t6,
           reads (healthy 0) (healthy_handle 0 0) [0; 1; 2; 3; 4] opening
           = Returns (ps, healthy_handle 0 5) t5
           /\ forallb is_ok ps = true
           /\ LasPoint (healthy 0) (healthy_handle 0 5) 5 t5
              = Returns (Ok p, healthy_handle 0 6) t6
           /\ LasPoint (healthy 0) (healthy_handle 0 6) 4 t6
              = Returns (Err "random access not yet implemented for LAZ files",
                         healthy_handle 0 6) t6).
Proof.
  intros Hrange. split; [|split].
  - intros p lf' t' H.
    destruct (LasPoint_returns C _ _ _ _ _ _ H) as (_ & _ & _ & Hi & Hc & _).
    split; [exact Hi|].
    rewrite Hc. apply int_small.
    pose proof (int_range (LasHeader.NumberPoints (LazFile.Header lf))).
    lia.
  - intros Hne. apply LasPoint_out_of_order; assumption.
  - split; [reflexivity|]. split; [reflexivity|].
    do 4 eexists. repeat (split; [cbv; reflexivity|]). reflexivity.
Qed.

(** C1, witness: index 5 against a cursor at 0, out of ten points. *)
Lemma LasPoint_sequential_witness :
  0 <= 5 < int (LasHeader.NumberPoints (LazFile.Header (healthy_handle 0 0)))
  /\ LasPoint (healthy 0) (healthy_handle 0 0) 5 opening
     = Returns (Err "random access not yet implemented for LAZ files",
                healthy_handle 0 0) opening.
Proof.
  assert (Hrange : 0 <= 5 < int (LasHeader.NumberPoints
                                   (LazFile.Header (healthy_handle 0 0))))
    by (vm_compute; split; [discriminate | reflexivity]).
  split; [exact Hrange|].
  refine (proj1 (proj2 (LasPoint_sequential (healthy 0) (healthy_handle 0 0)
                                            5 opening Hrange)) _).
  vm_compute. discriminate.
Defined.

(** C2, as stated, at a concrete input.  The decoder reports point format
    7, zero scale factors and one-byte records for ten points; [NewLazFile]
    returns a handle all the same, with those values in its header, and
    the first point read through it comes back as the format-0 variant. *)
Lemma NewLazFile_accepts_malformed_header :
  NewLazFile malformed "cloud.laz" "r" []
  = Returns (Ok (malformed_handle 0)) opening
  /\ LasHeader.PointFormatID (LazFile.Header (malformed_handle 0)) = 7
  /\ LasHeader.XScaleFactor (LazFile.Header (malformed_handle 0))
     = float64_zero
  /\ LasHeader.PointRecordLength (LazFile.Header (malformed_handle 0)) = 1
  /\ exists p,
       LasPoint malformed (malformed_handle 0) 0 opening
       = Returns (Ok (Record0 p), malformed_handle 1)
                 (reading ++ opening)%list.
Proof.
  repeat (split; [reflexivity|]).
  eexists. cbv. reflexivity.
Qed.

(** C2 (amended).  Opening does not validate the header.  Whenever the
    reader is created and opened without error, [NewLazFile] returns a
    handle, with the cursor at 0, whose point format, point count, record
    length and scale factors are the ones the decoder reports, whatever
    they are.  A point converted under a format outside 0..3 is the
    format-0 variant. *)
Theorem NewLazFile_copies_header (C : laszip) (fileName fileMode : string)
    (t t0 t1 : trace) (r0 r1 : LaszipReader.t) :
  fileMode = "r" \/ fileMode = "rh" ->
  NewLaszipReader C t = Returns (Ok r0) t0 ->
  OpenReader C r0 fileName t0 = Returns (None, r1) t1 ->
  (exists lf,
      NewLazFile C fileName fileMode t = Returns (Ok lf) t1
      /\ LazFile.reader lf = Some r1
      /\ LazFile.currentPoint lf = 0
      /\ LasHeader.PointFormatID (LazFile.Header lf)
         = byte (uint8 (laszip_header_struct.point_data_format
                          (header_mem C t1)))
      /\ LasHeader.NumberPoints (LazFile.Header lf)
         = int (uint32 (laszip_header_struct.number_of_point_records
                          (header_mem C t1)))
      /\ LasHeader.PointRecordLength (LazFile.Header lf)
         = int (uint16 (laszip_header_struct.point_data_record_length
                          (header_mem C t1)))
      /\ LasHeader.XScaleFactor (LazFile.Header lf)
         = laszip_header_struct.x_scale_factor (header_mem C t1)
      /\ LasHeader.YScaleFactor (LazFile.Header lf)
         = laszip_header_struct.y_scale_factor (header_mem C t1)
      /\ LasHeader.ZScaleFactor (LazFile.Header lf)
         = laszip_header_struct.z_scale_factor (header_mem C t1))
  /\ (forall lf lp,
        ~ In (LasHeader.PointFormatID (LazFile.Header lf)) [0; 1; 2; 3] ->
        convertPoint lf lp = Record0 (PointData (convertPoint lf lp))).
Proof.
  intros Hmode Hnew Hopen. split.
  - destruct (OpenReader_opened C _ _ _ _ _ Hopen) as (Ho & Hh & _).
    set (lf0 := LazFile.with_reader (Some r1)
                  (LazFile.mk fileName fileMode None LasHeader.zero true 0)).
    destruct (convertHeader_open C lf0 r1 t1 eq_refl Ho Hh)
      as (lf & Hconv & Hreader & Hcursor & Hrest).
    exists lf. split.
    + unfold NewLazFile.
      assert (Hm : negb (fileMode =? "r")%string
                   && negb (fileMode =? "rh")%string = false)
        by (destruct Hmode as [-> | ->]; reflexivity).
      rewrite Hm. cbv beta iota zeta delta [bind].
      rewrite Hnew, Hopen. fold lf0. rewrite Hconv. reflexivity.
    + split; [exact Hreader|]. split; [exact Hcursor|]. exact Hrest.
  - intros lf lp Hout. unfold convertPoint.
    destruct (LasHeader.PointFormatID (LazFile.Header lf))
      as [|[[|[]|]|[|[]|]|]|]; try reflexivity;
      exfalso; apply Hout; simpl; tauto.
Qed.

(** C2, witness: the open of the malformed file. *)
Lemma NewLazFile_copies_header_witness :
  exists lf,
    NewLazFile malformed "cloud.laz" "r" [] = Returns (Ok lf) opening
    /\ LasHeader.PointFormatID (LazFile.Header lf) = 7
    /\ LasHeader.XScaleFactor (LazFile.Header lf) = float64_zero.
Proof.
  destruct (NewLazFile_copies_header malformed "cloud.laz" "r"
              [] [laszip_create] opening
              (LaszipReader.with_pointer true LaszipReader.zero)
              (sample_reader 0)
              (or_introl eq_refl) eq_refl eq_refl)
    as [(lf & Hrun & _ & _ & Hformat & _ & _ & Hscale & _) _].
  exists lf. split; [exact Hrun|]. split; [exact Hformat|exact Hscale].
Defined.

(** C3.  For every classification byte [b] of the source point, the
    classification byte of the point [convertPoint] builds is [b]: setting
    again the synthetic, key-point and withheld bits that are set in [b]
    changes nothing, so the three flags pass through and no byte value is
    altered. *)
Theorem convertPoint_classification_lossless (lf : LazFile.t)
    (lp : LaszipPoint.t) (b : Z) :
  is_uint8 b ->
  LaszipPoint.Classification lp = b ->
  ClassificationBitField.Value
    (PointRecord0.ClassBitField (PointData (convertPoint lf lp))) = b
  /\ (if negb (Z.land b 0x20 =? 0) then Z.lor b 0x20 else b) = b
  /\ (if negb (Z.land b 0x40 =? 0) then Z.lor b 0x40 else b) = b
  /\ (if negb (Z.land b 0x80 =? 0) then Z.lor b 0x80 else b) = b.
Proof.
  intros _ Hb. split.
  - rewrite convertPoint_classification. exact Hb.
  - change 0x80 with (2 ^ 7). change 0x40 with (2 ^ 6).
    change 0x20 with (2 ^ 5).
    repeat split; apply restate_flag; (lia || reflexivity).
Qed.

(** C3, witness: the byte 0xE5 (class 5 with all three flags set). *)
Lemma convertPoint_classification_lossless_witness :
  let lp := LaszipPoint.mk 0 0 0 0 1 1 0 0 0xE5 0 0 0 0 in
  is_uint8 0xE5
  /\ ClassificationBitField.Value
       (PointRecord0.ClassBitField
          (PointData (convertPoint (healthy_handle 0 0) lp))) = 0xE5.
Proof.
  intros lp.
  assert (Hb : is_uint8 0xE5)
    by (unfold is_uint8; split; [discriminate | reflexivity]).
  split; [exact Hb|].
  exact (proj1 (convertPoint_classification_lossless
                  (healthy_handle 0 0) lp 0xE5 Hb eq_refl)).
Defined.

(** C4.  A successful read on a handle whose header declares a point
    format among 0, 1, 2, 3 returns the variant of that format: it has a
    GPS time exactly for formats 1 and 3 and a color exactly for formats 2
    and 3. *)
Theorem LasPoint_variant_matches_format (C : laszip) (lf lf' : LazFile.t)
    (i f : Z) (t t' : trace) (p : LasPointer) :
  LasHeader.PointFormatID (LazFile.Header lf) = f ->
  In f [0; 1; 2; 3] ->
  LasPoint C lf i t = Returns (Ok p, lf') t' ->
  has_gps_time p = ((f =? 1) || (f =? 3))
  /\ has_color p = ((f =? 2) || (f =? 3)).
Proof.
  intros Hf Hin H.
  destruct (LasPoint_returns C _ _ _ _ _ _ H)
    as (Hhdr & _ & _ & _ & _ & lp & -> & _).
  unfold convertPoint. rewrite Hhdr, Hf.
  simpl in Hin.
  destruct Hin as [<- | [<- | [<- | [<- | []]]]]; split; reflexivity.
Qed.

(** C4, witness: the first read on a format-3 handle has both. *)
Lemma LasPoint_variant_matches_format_witness :
  exists p t',
    LasPoint (healthy 3) (healthy_handle 3 0) 0 opening
    = Returns (Ok p, healthy_handle 3 1) t'
    /\ has_gps_time p = true /\ has_color p = true.
Proof.
  do 2 eexists.
  assert (H : LasPoint (healthy 3) (healthy_handle 3 0) 0 opening
              = Returns (Ok _, healthy_handle 3 1) _) by (cbv; reflexivity).
  split; [exact H|].
  exact (LasPoint_variant_matches_format (healthy 3) (healthy_handle 3 0)
           (healthy_handle 3 1) 0 3 opening _ _
           eq_refl (or_intror (or_intror (or_intror (or_introl eq_refl)))) H).
Defined.

(** C5, as stated, at a concrete input.  The decoder's [laszip_destroy]
    reports a failure.  The first [Close] on a freshly opened handle
    returns that error and leaves the reader marked open; the second
    [Close] returns it again, after closing and destroying the decoder a
    second time. *)
Lemma Close_twice_after_failed_destroy :
  NewLazFile undestroyable "cloud.laz" "r" []
  = Returns (Ok (plain_handle 0)) opening
  /\ Close undestroyable (plain_handle 0) opening
     = Returns (Some "laszip: failure", plain_handle 0)
               (laszip_get_error :: laszip_destroy :: laszip_close_reader
                :: opening)
  /\ Close undestroyable (plain_handle 0)
       (laszip_get_error :: laszip_destroy :: laszip_close_reader :: opening)
     = Returns (Some "laszip: failure", plain_handle 0)
               (laszip_get_error :: laszip_destroy :: laszip_close_reader
                :: laszip_get_error :: laszip_destroy :: laszip_close_reader
                :: opening)
  /\ calls is_destroy
       (laszip_get_error :: laszip_destroy :: laszip_close_reader
        :: laszip_get_error :: laszip_destroy :: laszip_close_reader
        :: opening) = 2%nat.
Proof.
  repeat split.
Qed.

(** C5 (amended).  On a handle whose reader is open, when the decoder's
    [laszip_close_reader] and [laszip_destroy] both succeed, the first
    [Close] returns no error after calling each of the two exactly once,
    and any later [Close] returns no error, makes no native call and
    leaves the handle as it is. *)
Theorem Close_idempotent_after_release (C : laszip) (lf : LazFile.t)
    (r : LaszipReader.t) (t : trace) :
  LazFile.reader lf = Some r ->
  LaszipReader.isOpen r = true ->
  rc C t laszip_close_reader = 0 ->
  rc C (laszip_close_reader :: t) laszip_destroy = 0 ->
  exists lf1,
    Close C lf t
    = Returns (None, lf1) (laszip_destroy :: laszip_close_reader :: t)
    /\ forall t', Close C lf1 t' = Returns (None, lf1) t'.
Proof.
  intros Hr Ho Hc Hd.
  exists (LazFile.with_reader (Some (LaszipReader.with_isOpen false r)) lf).
  split.
  - unfold Close. rewrite Hr. cbv beta iota delta [bind].
    rewrite (Reader_Close_released C r t Ho Hc Hd). reflexivity.
  - intros t'. unfold Close. cbn [LazFile.reader LazFile.with_reader].
    cbv beta iota delta [bind].
    rewrite Reader_Close_closed by reflexivity.
    reflexivity.
Qed.

(** C5, witness: closing a freshly opened handle twice on a decoder that
    works. *)
Lemma Close_idempotent_after_release_witness :
  exists lf1,
    Close (healthy 0) (healthy_handle 0 0) opening
    = Returns (None, lf1) (laszip_destroy :: laszip_close_reader :: opening)
    /\ Close (healthy 0) lf1
         (laszip_destroy :: laszip_close_reader :: opening)
       = Returns (None, lf1)
           (laszip_destroy :: laszip_close_reader :: opening).
Proof.
  destruct (Close_idempotent_after_release (healthy 0) (healthy_handle 0 0)
              (sample_reader 0) opening eq_refl eq_refl eq_refl eq_refl)
    as (lf1 & Hfirst & Hlater).
  exists lf1. split; [exact Hfirst|apply Hlater].
Defined.

(** C6.  Whenever [LasPoint] returns an error, the cursor of the handle is
    what it was before the call, and the call has asked the decoder for at
    most one point: nothing is tried a second time. *)
Theorem LasPoint_failure_keeps_cursor (C : laszip) (lf lf' : LazFile.t)
    (i : Z) (t t' : trace) (msg : string) :
  LasPoint C lf i t = Returns (Err msg, lf') t' ->
  LazFile.currentPoint lf' = LazFile.currentPoint lf
  /\ (calls is_read_point t' <= calls is_read_point t + 1)%nat.
Proof.
  intros H.
  destruct (LasPoint_returns C _ _ _ _ _ _ H) as (_ & Hn & Hc).
  split; assumption.
Qed.

(** C6, witness: the decoder fails on the first point. *)
Lemma LasPoint_failure_keeps_cursor_witness :
  LasPoint unreadable (plain_handle 0) 0 opening
  = Returns (Err "failed to read point: laszip: failure", plain_handle 0)
            (laszip_get_error :: laszip_read_point :: opening)
  /\ LazFile.currentPoint (plain_handle 0) = 0
  /\ (calls is_read_point (laszip_get_error :: laszip_read_point :: opening)
      <= calls is_read_point opening + 1)%nat.
Proof.
  assert (H : LasPoint unreadable (plain_handle 0) 0 opening
              = Returns (Err "failed to read point: laszip: failure",
                         plain_handle 0)
                        (laszip_get_error :: laszip_read_point :: opening))
    by reflexivity.
  split; [exact H|].
  exact (LasPoint_failure_keeps_cursor unreadable _ _ _ _ _ _ H).
Defined.



(** C8, at the failing input.  The decoder is created but cannot open the
    file.  [NewLazFile] returns the error and no handle, and the native
    calls it has made are [laszip_create], [laszip_open_reader] and
    [laszip_get_error]: the decoder it created is neither closed nor
    destroyed. *)
Theorem NewLazFile_open_failure_leaks :
  NewLazFile unopenable "cloud.laz" "r" []
  = Returns (Err "failed to open LAZ file: laszip: failure")
            [laszip_get_error; laszip_open_reader "cloud.laz"; laszip_create]
  /\ calls is_create
       [laszip_get_error; laszip_open_reader "cloud.laz"; laszip_create]
     = 1%nat
  /\ calls is_close_reader
       [laszip_get_error; laszip_open_reader "cloud.laz"; laszip_create]
     = 0%nat
  /\ calls is_destroy
       [laszip_get_error; laszip_open_reader "cloud.laz"; laszip_create]
     = 0%nat.
Proof.
  repeat split.
Qed.

(** C9.  Every point read successfully comes from an adapter point whose
    return number and number of returns are 1 and whose scan direction
    flag, edge of flight line flag and classification are 0, whatever the
    decoder holds; its packed return byte is therefore 0x09 and its
    classification byte 0x00. *)
Theorem LasPoint_constant_flags (C : laszip) (lf lf' : LazFile.t) (i : Z)
    (t t' : trace) (p : LasPointer) :
  LasPoint C lf i t = Returns (Ok p, lf') t' ->
  (exists lp,
      p = convertPoint lf' lp
      /\ LaszipPoint.ReturnNumber lp = 1
      /\ LaszipPoint.NumberOfReturns lp = 1
      /\ LaszipPoint.ScanDirectionFlag lp = 0
      /\ LaszipPoint.EdgeOfFlightFlag lp = 0
      /\ LaszipPoint.Classification lp = 0)
  /\ PointBitField.Value (PointRecord0.BitField (PointData p)) = 0x09
  /\ ClassificationBitField.Value (PointRecord0.ClassBitField (PointData p))
     = 0x00.
Proof.
  intros H.
  destruct (LasPoint_returns C _ _ _ _ _ _ H)
    as (_ & _ & _ & _ & _ & lp & Hp & Hrn & Hnr & Hsd & Hef & Hcl).
  split.
  - exists lp. repeat split; assumption.
  - subst p. split.
    + rewrite convertPoint_return_byte, Hrn, Hnr, Hsd, Hef. reflexivity.
    + rewrite convertPoint_classification. exact Hcl.
Qed.

(** C9, witness: the first point of a format-1 file. *)
Lemma LasPoint_constant_flags_witness :
  exists p,
    LasPoint (healthy 1) (healthy_handle 1 0) 0 opening
    = Returns (Ok p, healthy_handle 1 1) (reading ++ opening)%list
    /\ PointBitField.Value (PointRecord0.BitField (PointData p)) = 0x09
    /\ ClassificationBitField.Value
         (PointRecord0.ClassBitField (PointData p)) = 0x00.
Proof.
  eexists.
  assert (H : LasPoint (healthy 1) (healthy_handle 1 0) 0 opening
              = Returns (Ok _, healthy_handle 1 1) (reading ++ opening)%list)
    by (cbv; reflexivity).
  split; [exact H|].
  exact (proj2 (LasPoint_constant_flags (healthy 1) (healthy_handle 1 0)
                  (healthy_handle 1 1) 0 opening _ _ H)).
Defined.

(** C10.  A point read successfully on a handle whose header declares
    point format 2 or 3 carries the color (0, 0, 0), whatever the decoder
    holds. *)
Theorem LasPoint_color_is_zero (C : laszip) (lf lf' : LazFile.t) (i : Z)
    (t t' : trace) (p : LasPointer) :
  LasHeader.PointFormatID (LazFile.Header lf) = 2
  \/ LasHeader.PointFormatID (LazFile.Header lf) = 3 ->
  LasPoint C lf i t = Returns (Ok p, lf') t' ->
  color_of p = Some (0, 0, 0).
Proof.
  intros Hf H.
  destruct (LasPoint_returns C _ _ _ _ _ _ H)
    as (Hhdr & _ & _ & _ & _ & lp & -> & _).
  unfold convertPoint. rewrite Hhdr.
  destruct Hf as [-> | ->]; reflexivity.
Qed.

(** C10, witness: the first point of a format-2 file. *)
Lemma LasPoint_color_is_zero_witness :
  exists p,
    LasPoint (healthy 2) (healthy_handle 2 0) 0 opening
    = Returns (Ok p, healthy_handle 2 1) (reading ++ opening)%list
    /\ color_of p = Some (0, 0, 0).
Proof.
  eexists.
  assert (H : LasPoint (healthy 2) (healthy_handle 2 0) 0 opening
              = Returns (Ok _, healthy_handle 2 1) (reading ++ opening)%list)
    by (cbv; reflexivity).
  split; [exact H|].
  exact (LasPoint_color_is_zero (healthy 2) (healthy_handle 2 0)
           (healthy_handle 2 1) 0 opening _ _ (or_introl eq_refl) H).
Defined.

(** * Further properties of the adapter *)

Section ReaderRuns.

Variable C : laszip.

(** [ReadPoint] succeeds exactly when the reader is open, has points left
    and the decoder accepts the read; the reader's cursor then moves by
    one and [laszip_read_point] is the only native call. *)
Lemma ReadPoint_ok_iff (r r' : LaszipReader.t) (t t' : trace) :
  ReadPoint C r t = Returns (None, r') t'
  <-> LaszipReader.isOpen r = true
      /\ LaszipReader.currentPoint r < LaszipReader.pointCount r
      /\ rc C t laszip_read_point = 0
      /\ r' = LaszipReader.with_currentPoint
                (uint64 (LaszipReader.currentPoint r + 1)) r
      /\ t' = laszip_read_point :: t.
Proof.
  unfold ReadPoint. split.
  - destruct (LaszipReader.isOpen r); cbn [negb]; [|discriminate].
    destruct (Z.leb_spec (LaszipReader.pointCount r)
                         (LaszipReader.currentPoint r)); [discriminate|].
    cbv beta iota zeta delta [bind call].
    destruct (Z.eqb_spec (rc C t laszip_read_point) 0) as [Hrc|Hrc];
      cbn [negb].
    + cbv [ret]. intros Heq. injection Heq as <- <-. repeat split; assumption.
    + destruct (getError_run C r (laszip_read_point :: t)) as [m ->].
      discriminate.
  - intros (Ho & Hlt & Hrc & -> & ->). rewrite Ho. cbn [negb].
    destruct (Z.leb_spec (LaszipReader.pointCount r)
                         (LaszipReader.currentPoint r)); [lia|].
    cbv beta iota zeta delta [bind call]. rewrite Hrc. reflexivity.
Qed.

(** A failed [ReadPoint] leaves the reader as it was. *)
Lemma ReadPoint_err_same (r r' : LaszipReader.t) (t t' : trace)
    (msg : string) :
  ReadPoint C r t = Returns (Some msg, r') t' -> r' = r.
Proof.
  unfold ReadPoint.
  destruct (LaszipReader.isOpen r); cbn [negb].
  2:{ intros H. injection H as _ <- _. reflexivity. }
  destruct (LaszipReader.pointCount r <=? LaszipReader.currentPoint r).
  { intros H. injection H as _ <- _. reflexivity. }
  cbv beta iota zeta delta [bind call].
  destruct (negb (rc C t laszip_read_point =? 0)); [|discriminate].
  destruct (getError_run C r (laszip_read_point :: t)) as [m ->].
  intros H. injection H as _ <- _. reflexivity.
Qed.

(** [GetPoint] on an open reader with a point structure: the coordinates
    are asked of the decoder and the fields are read from its point. *)
Lemma GetPoint_open (r : LaszipReader.t) (t : trace) :
  LaszipReader.isOpen r = true ->
  LaszipReader.point r = true ->
  exists lp,
    GetPoint C r t = Returns (Some lp) (laszip_get_coordinates :: t)
    /\ (LaszipPoint.X lp, LaszipPoint.Y lp, LaszipPoint.Z lp)
       = coordinates_out C (laszip_get_coordinates :: t)
    /\ LaszipPoint.Intensity lp
       = uint16 (laszip_point_struct.intensity
                   (point_mem C (laszip_get_coordinates :: t)))
    /\ LaszipPoint.ScanAngleRank lp
       = int8 (laszip_point_struct.scan_angle_rank
                 (point_mem C (laszip_get_coordinates :: t)))
    /\ LaszipPoint.UserData lp
       = uint8 (laszip_point_struct.user_data
                  (point_mem C (laszip_get_coordinates :: t)))
    /\ LaszipPoint.PointSourceID lp
       = uint16 (laszip_point_struct.point_source_ID
                   (point_mem C (laszip_get_coordinates :: t)))
    /\ LaszipPoint.GPSTime lp
       = laszip_point_struct.gps_time
           (point_mem C (laszip_get_coordinates :: t))
    /\ LaszipPoint.ReturnNumber lp = 1
    /\ LaszipPoint.NumberOfReturns lp = 1
    /\ LaszipPoint.ScanDirectionFlag lp = 0
    /\ LaszipPoint.EdgeOfFlightFlag lp = 0
    /\ LaszipPoint.Classification lp = 0.
Proof.
  intros Ho Hp. unfold GetPoint. rewrite Ho, Hp. cbn [negb orb].
  cbv beta iota zeta delta [bind call peek ret].
  destruct (coordinates_out C (laszip_get_coordinates :: t)) as [[c0 c1] c2].
  eexists. split; [reflexivity|]. cbn. repeat split.
Qed.

(** [GetPoint] gives nothing exactly when the reader is closed or has no
    point structure, and then calls nothing. *)
Lemma GetPoint_none_iff (r : LaszipReader.t) (t t' : trace) :
  GetPoint C r t = Returns None t'
  <-> (LaszipReader.isOpen r = false \/ LaszipReader.point r = false)
      /\ t' = t.
Proof.
  unfold GetPoint. split.
  - destruct (LaszipReader.isOpen r), (LaszipReader.point r); cbn [negb orb];
      cbv beta iota zeta delta [bind call peek ret];
      try (intros H; injection H as <-; split; auto; fail).
    destruct (coordinates_out C (laszip_get_coordinates :: t)) as [[c0 c1] c2].
    discriminate.
  - intros [[Ho | Hp] ->].
    + rewrite Ho. reflexivity.
    + rewrite Hp. rewrite orb_true_r. reflexivity.
Qed.

End ReaderRuns.

(** * Further properties of the handle *)

(** Putting back the reader a handle already holds changes nothing. *)
Lemma with_reader_same (lf : LazFile.t) (r : LaszipReader.t) :
  LazFile.reader lf = Some r -> LazFile.with_reader (Some r) lf = lf.
Proof.
  destruct lf as [n m rd h c k]. cbn. intros ->. reflexivity.
Qed.

(** The exact shape of a successful [LasPoint]. *)
Lemma LasPoint_ok_shape (C : laszip) (lf lf' : LazFile.t) (i : Z) (t t' : trace)
    (p : LasPointer) :
  LasPoint C lf i t = Returns (Ok p, lf') t' ->
  0 <= i < int (LasHeader.NumberPoints (LazFile.Header lf))
  /\ i = LazFile.currentPoint lf
  /\ exists r lp,
       LazFile.reader lf = Some r
       /\ LaszipReader.isOpen r = true
       /\ LaszipReader.point r = true
       /\ LaszipReader.currentPoint r < LaszipReader.pointCount r
       /\ rc C t laszip_read_point = 0
       /\ t' = laszip_get_coordinates :: laszip_read_point :: t
       /\ GetPoint C (LaszipReader.with_currentPoint
                        (uint64 (LaszipReader.currentPoint r + 1)) r)
                   (laszip_read_point :: t)
          = Returns (Some lp) t'
       /\ lf' = LazFile.with_currentPoint (i + 1)
                  (LazFile.with_reader
                     (Some (LaszipReader.with_currentPoint
                              (uint64 (LaszipReader.currentPoint r + 1)) r))
                     lf)
       /\ p = convertPoint lf' lp.
Proof.
  intros H. unfold LasPoint in H.
  destruct (Z.ltb_spec i 0) as [Hlt|Hge]; cbn [orb] in H; [discriminate H|].
  destruct (Z.leb_spec (int (LasHeader.NumberPoints (LazFile.Header lf))) i)
    as [Hle|Hlt]; [discriminate H|].
  destruct (Z.eqb_spec i (LazFile.currentPoint lf)) as [Heq|Hne];
    cbn [negb] in H; [|discriminate H].
  destruct (LazFile.reader lf) as [r|]; [|discriminate H].
  cbv beta iota delta [bind] in H.
  destruct (ReadPoint_run C r t) as (e & r1 & t1 & Hrp & _).
  rewrite Hrp in H.
  destruct e as [err|]; [discriminate H|].
  apply ReadPoint_ok_iff in Hrp. destruct Hrp as (Ho & Hleft & Hrc & -> & ->).
  set (r1 := LaszipReader.with_currentPoint
               (uint64 (LaszipReader.currentPoint r + 1)) r) in *.
  destruct (LaszipReader.point r) eqn:Hp.
  2:{ assert (Hnone : GetPoint C r1 (laszip_read_point :: t)
                      = Returns None (laszip_read_point :: t)).
      { apply GetPoint_none_iff. split; [right; exact Hp|reflexivity]. }
      rewrite Hnone in H. discriminate H. }
  destruct (GetPoint_open C r1 (laszip_read_point :: t) Ho Hp)
    as (lp & Hgp & _).
  rewrite Hgp in H.
  assert (Hint : int (LazFile.currentPoint lf + 1) = i + 1).
  { rewrite <- Heq. apply int_small.
    pose proof (int_range (LasHeader.NumberPoints (LazFile.Header lf))).
    lia. }
  cbv beta iota zeta delta [ret] in H.
  cbn [LazFile.currentPoint LazFile.with_reader] in H.
  rewrite Hint in H. injection H as <- <- <-.
  split; [lia|]. split; [exact Heq|].
  exists r, lp. repeat split; assumption.
Qed.

(** A read at the cursor of a reader that is open, has a point structure
    and points left succeeds when the decoder accepts it. *)
Lemma LasPoint_ready (C : laszip) (lf : LazFile.t) (r : LaszipReader.t)
    (i : Z) (t : trace) :
  0 <= i < int (LasHeader.NumberPoints (LazFile.Header lf)) ->
  i = LazFile.currentPoint lf ->
  LazFile.reader lf = Some r ->
  LaszipReader.isOpen r = true ->
  LaszipReader.point r = true ->
  LaszipReader.currentPoint r < LaszipReader.pointCount r ->
  rc C t laszip_read_point = 0 ->
  exists p lf' t', LasPoint C lf i t = Returns (Ok p, lf') t'.
Proof.
  intros Hr Hi Hrd Ho Hp Hleft Hrc.
  unfold LasPoint.
  destruct (Z.ltb_spec i 0); [lia|].
  destruct (Z.leb_spec (int (LasHeader.NumberPoints (LazFile.Header lf))) i);
    [lia|].
  destruct (Z.eqb_spec i (LazFile.currentPoint lf)); [|contradiction].
  cbn [orb negb]. rewrite Hrd. cbv beta iota delta [bind].
  assert (Hrp : ReadPoint C r t
                = Returns (None, LaszipReader.with_currentPoint
                             (uint64 (LaszipReader.currentPoint r + 1)) r)
                          (laszip_read_point :: t)).
  { apply ReadPoint_ok_iff. repeat split; assumption. }
  rewrite Hrp.
  destruct (GetPoint_open C
              (LaszipReader.with_currentPoint
                 (uint64 (LaszipReader.currentPoint r + 1)) r)
              (laszip_read_point :: t) Ho Hp) as (lp & Hgp & _).
  rewrite Hgp. cbv [ret]. do 3 eexists. reflexivity.
Qed.

(** X1.  A read returns a point exactly when the index is in range and
    equals the cursor, the reader is open on a valid point structure and
    has points left, and the decoder accepts the read. *)
Theorem LasPoint_succeeds_iff (C : laszip) (lf : LazFile.t) (i : Z)
    (t : trace) :
  (exists p lf' t', LasPoint C lf i t = Returns (Ok p, lf') t')
  <-> 0 <= i < int (LasHeader.NumberPoints (LazFile.Header lf))
      /\ i = LazFile.currentPoint lf
      /\ exists r,
           LazFile.reader lf = Some r
           /\ LaszipReader.isOpen r = true
           /\ LaszipReader.point r = true
           /\ LaszipReader.currentPoint r < LaszipReader.pointCount r
           /\ rc C t laszip_read_point = 0.
Proof.
  split.
  - intros (p & lf' & t' & H).
    destruct (LasPoint_ok_shape C _ _ _ _ _ _ H)
      as (Hr & Hi & r & lp & Hrd & Ho & Hp & Hleft & Hrc & _).
    split; [exact Hr|]. split; [exact Hi|].
    exists r. repeat split; assumption.
  - intros (Hr & Hi & r & Hrd & Ho & Hp & Hleft & Hrc).
    exact (LasPoint_ready C lf r i t Hr Hi Hrd Ho Hp Hleft Hrc).
Qed.

(** X1, witness: the first read on a fresh handle over a working
    decoder. *)
Lemma LasPoint_succeeds_iff_witness :
  exists p lf' t',
    LasPoint (healthy 0) (healthy_handle 0 0) 0 opening
    = Returns (Ok p, lf') t'.
Proof.
  apply (proj2 (LasPoint_succeeds_iff (healthy 0) (healthy_handle 0 0) 0
                  opening)).
  split; [vm_compute; split; [discriminate | reflexivity]|].
  split; [reflexivity|].
  exists (sample_reader 0). repeat split.
Defined.

(** The core record of a converted point holds the fields of the adapter's
    point, whatever the format. *)
Lemma convertPoint_core (lf : LazFile.t) (lp : LaszipPoint.t) :
  PointRecord0.X (PointData (convertPoint lf lp)) = LaszipPoint.X lp
  /\ PointRecord0.Y (PointData (convertPoint lf lp)) = LaszipPoint.Y lp
  /\ PointRecord0.Z (PointData (convertPoint lf lp)) = LaszipPoint.Z lp
  /\ PointRecord0.Intensity (PointData (convertPoint lf lp))
     = LaszipPoint.Intensity lp
  /\ PointRecord0.ScanAngle (PointData (convertPoint lf lp))
     = LaszipPoint.ScanAngleRank lp
  /\ PointRecord0.UserData (PointData (convertPoint lf lp))
     = LaszipPoint.UserData lp
  /\ PointRecord0.PointSourceID (PointData (convertPoint lf lp))
     = LaszipPoint.PointSourceID lp.
Proof.
  unfold convertPoint. rewrite PointData_switch. repeat split.
Qed.

(** The coordinates of a point read successfully. *)
Lemma LasPoint_ok_coordinates (C : laszip) (lf lf' : LazFile.t) (i : Z)
    (t t' : trace) (p : LasPointer) :
  LasPoint C lf i t = Returns (Ok p, lf') t' ->
  t' = laszip_get_coordinates :: laszip_read_point :: t
  /\ (PointRecord0.X (PointData p), PointRecord0.Y (PointData p),
      PointRecord0.Z (PointData p)) = coordinates_out C t'.
Proof.
  intros H.
  destruct (LasPoint_ok_shape C _ _ _ _ _ _ H)
    as (_ & _ & r & lp & _ & Ho & Hp & _ & _ & Ht & Hgp & _ & ->).
  destruct (GetPoint_open C
              (LaszipReader.with_currentPoint
                 (uint64 (LaszipReader.currentPoint r + 1)) r)
              (laszip_read_point :: t) Ho Hp) as (lp' & Hgp' & Hxyz & _).
  rewrite Hgp' in Hgp. injection Hgp as Hlp _. subst lp.
  destruct (convertPoint_core lf' lp') as (-> & -> & -> & _).
  subst t'. split; [reflexivity|exact Hxyz].
Qed.

(** X2.  A point read successfully holds what the decoder holds right
    after the read: the native calls are one [laszip_read_point] followed
    by one [laszip_get_coordinates], the coordinates of the point are the
    triple the decoder reports (no scale or offset is applied on top),
    and intensity, scan angle, user data and point source are the fields
    of the decoder's current point, cut to their Go types. *)
Theorem LasPoint_point_data (C : laszip) (lf lf' : LazFile.t) (i : Z)
    (t t' : trace) (p : LasPointer) :
  LasPoint C lf i t = Returns (Ok p, lf') t' ->
  t' = laszip_get_coordinates :: laszip_read_point :: t
  /\ (PointRecord0.X (PointData p), PointRecord0.Y (PointData p),
      PointRecord0.Z (PointData p)) = coordinates_out C t'
  /\ PointRecord0.Intensity (PointData p)
     = uint16 (laszip_point_struct.intensity (point_mem C t'))
  /\ PointRecord0.ScanAngle (PointData p)
     = int8 (laszip_point_struct.scan_angle_rank (point_mem C t'))
  /\ PointRecord0.UserData (PointData p)
     = uint8 (laszip_point_struct.user_data (point_mem C t'))
  /\ PointRecord0.PointSourceID (PointData p)
     = uint16 (laszip_point_struct.point_source_ID (point_mem C t')).
Proof.
  intros H.
  destruct (LasPoint_ok_shape C _ _ _ _ _ _ H)
    as (_ & _ & r & lp & _ & Ho & Hp & _ & _ & Ht & Hgp & _ & ->).
  destruct (GetPoint_open C
              (LaszipReader.with_currentPoint
                 (uint64 (LaszipReader.currentPoint r + 1)) r)
              (laszip_read_point :: t) Ho Hp)
    as (lp' & Hgp' & Hxyz & Hin & Hsa & Hud & Hps & _).
  rewrite Hgp' in Hgp. injection Hgp as Hlp _. subst lp.
  destruct (convertPoint_core lf' lp')
    as (-> & -> & -> & -> & -> & -> & ->).
  subst t'. repeat split; assumption.
Qed.

(** X2, witness: the first point of a format-1 file, whose decoder holds
    1 in every field after one read. *)
Lemma LasPoint_point_data_witness :
  exists p,
    LasPoint (healthy 1) (healthy_handle 1 0) 0 opening
    = Returns (Ok p, healthy_handle 1 1) (reading ++ opening)%list
    /\ (PointRecord0.X (PointData p), PointRecord0.Y (PointData p),
        PointRecord0.Z (PointData p)) = (1, 1, 1)
    /\ PointRecord0.Intensity (PointData p) = 1.
Proof.
  eexists.
  assert (H : LasPoint (healthy 1) (healthy_handle 1 0) 0 opening
              = Returns (Ok _, healthy_handle 1 1) (reading ++ opening)%list)
    by (cbv; reflexivity).
  split; [exact H|].
  destruct (LasPoint_point_data (healthy 1) _ _ _ _ _ _ H)
    as (_ & Hxyz & Hin & _).
  split; [exact Hxyz|exact Hin].
Defined.

(** X3.  [GetXYZ] fails exactly as [LasPoint] does, with the same message,
    handle and native calls.  When it succeeds it returns the triple the
    decoder reports after the read, and the cursor has moved by one. *)
Theorem GetXYZ_decoder_coordinates (C : laszip) (lf : LazFile.t) (i : Z)
    (t : trace) :
  (forall msg lf' t',
      GetXYZ C lf i t = Returns (Err msg, lf') t'
      <-> LasPoint C lf i t = Returns (Err msg, lf') t')
  /\ (forall xyz lf' t',
        GetXYZ C lf i t = Returns (Ok xyz, lf') t' ->
        xyz = coordinates_out C t'
        /\ t' = laszip_get_coordinates :: laszip_read_point :: t
        /\ LazFile.currentPoint lf' = LazFile.currentPoint lf + 1).
Proof.
  unfold GetXYZ. cbv beta iota delta [bind].
  destruct (LasPoint C lf i t) as [[[p|e] lf1] t1|t1] eqn:Hlas; cbv [ret].
  - split.
    + intros msg lf' t'. split; discriminate.
    + intros xyz lf' t' H. injection H as <- <- <-.
      destruct (LasPoint_ok_coordinates C _ _ _ _ _ _ Hlas) as (Ht & Hxyz).
      destruct (LasPoint_ok_shape C _ _ _ _ _ _ Hlas)
        as (_ & Hi & r & lp & _ & _ & _ & _ & _ & _ & _ & -> & _).
      split; [exact Hxyz|]. split; [exact Ht|].
      cbn. rewrite Hi. reflexivity.
  - split.
    + intros msg lf' t'.
      split; intros H; injection H as <- <- <-; reflexivity.
    + intros xyz lf' t'. discriminate.
  - split.
    + intros msg lf' t'. split; discriminate.
    + intros xyz lf' t'. discriminate.
Qed.

(** X3, witness: the coordinates of the first point of a working
    decoder, and an index ahead of the cursor. *)
Lemma GetXYZ_decoder_coordinates_witness :
  GetXYZ (healthy 0) (healthy_handle 0 0) 0 opening
  = Returns (Ok (1, 1, 1), healthy_handle 0 1) (reading ++ opening)%list
  /\ (1, 1, 1) = coordinates_out (healthy 0) (reading ++ opening)%list
  /\ GetXYZ (healthy 0) (healthy_handle 0 0) 5 opening
     = Returns (Err "random access not yet implemented for LAZ files",
                healthy_handle 0 0) opening.
Proof.
  assert (H : GetXYZ (healthy 0) (healthy_handle 0 0) 0 opening
              = Returns (Ok (1, 1, 1), healthy_handle 0 1)
                        (reading ++ opening)%list) by reflexivity.
  destruct (GetXYZ_decoder_coordinates (healthy 0) (healthy_handle 0 0) 0
              opening) as [_ Hok].
  destruct (GetXYZ_decoder_coordinates (healthy 0) (healthy_handle 0 0) 5
              opening) as [Herr _].
  split; [exact H|]. split; [exact (proj1 (Hok _ _ _ H))|].
  apply Herr. reflexivity.
Defined.

(** A failed [LasPoint] leaves the handle as it was, except when the
    reader has no point structure: the decoder has then moved on by one
    point that the handle does not know of. *)
Lemma LasPoint_err_shape (C : laszip) (lf lf' : LazFile.t) (i : Z)
    (t t' : trace) (msg : string) :
  LasPoint C lf i t = Returns (Err msg, lf') t' ->
  lf' = lf
  \/ exists r,
       LazFile.reader lf = Some r
       /\ LaszipReader.isOpen r = true
       /\ LaszipReader.point r = false
       /\ msg = "failed to get point data"
       /\ t' = laszip_read_point :: t.
Proof.
  intros H. unfold LasPoint in H.
  destruct ((i <? 0)
            || (int (LasHeader.NumberPoints (LazFile.Header lf)) <=? i)).
  { injection H as _ <- _. left. reflexivity. }
  destruct (negb (i =? LazFile.currentPoint lf)).
  { injection H as _ <- _. left. reflexivity. }
  destruct (LazFile.reader lf) as [r|] eqn:Hrd; [|discriminate H].
  cbv beta iota delta [bind] in H.
  destruct (ReadPoint_run C r t) as (e & r1 & t1 & Hrp & _).
  rewrite Hrp in H.
  destruct e as [err|].
  - apply ReadPoint_err_same in Hrp. subst r1.
    injection H as _ <- _. left. apply with_reader_same. exact Hrd.
  - apply ReadPoint_ok_iff in Hrp. destruct Hrp as (Ho & _ & _ & -> & ->).
    destruct (LaszipReader.point r) eqn:Hp.
    + destruct (GetPoint_open C
                  (LaszipReader.with_currentPoint
                     (uint64 (LaszipReader.currentPoint r + 1)) r)
                  (laszip_read_point :: t) Ho Hp) as (lp & Hgp & _).
      rewrite Hgp in H. discriminate H.
    + assert (Hnone : GetPoint C
                        (LaszipReader.with_currentPoint
                           (uint64 (LaszipReader.currentPoint r + 1)) r)
                        (laszip_read_point :: t)
                      = Returns None (laszip_read_point :: t)).
      { apply GetPoint_none_iff. split; [right; exact Hp|reflexivity]. }
      rewrite Hnone in H. injection H as <- _ <-.
      right. exists r. repeat split; assumption.
Qed.

(** What [in_step] says, spelled out. *)
Lemma in_step_spec (lf : LazFile.t) :
  in_step lf = true
  <-> exists r,
        LazFile.reader lf = Some r
        /\ LaszipReader.isOpen r = true
        /\ LaszipReader.point r = true
        /\ LaszipReader.currentPoint r = LazFile.currentPoint lf
        /\ LaszipReader.pointCount r
           = int (LasHeader.NumberPoints (LazFile.Header lf))
        /\ 0 <= LazFile.currentPoint lf
           <= int (LasHeader.NumberPoints (LazFile.Header lf)).
Proof.
  unfold in_step. split.
  - destruct (LazFile.reader lf) as [r|]; [|discriminate].
    intros H. repeat (apply andb_prop in H; destruct H as [H ?]).
    exists r. repeat split; try assumption; try lia.
  - intros (r & -> & -> & -> & Hc & Hn & H0 & Hle).
    rewrite Hc, Hn. cbn [andb].
    rewrite Z.eqb_refl, Z.eqb_refl. cbn [andb].
    apply andb_true_intro. split; lia.
Qed.

(** Being in step is kept by a successful read. *)
Lemma in_step_after_read (C : laszip) (lf lf' : LazFile.t) (i : Z)
    (t t' : trace) (p : LasPointer) :
  in_step lf = true ->
  LasPoint C lf i t = Returns (Ok p, lf') t' ->
  in_step lf' = true.
Proof.
  intros Hin H.
  pose proof (proj1 (in_step_spec lf) Hin)
    as (r & Hrd & Ho & Hp & Hc & Hn & H0 & Hle).
  destruct (LasPoint_ok_shape C _ _ _ _ _ _ H)
    as (Hr & Hi & r' & lp & Hrd' & _ & _ & Hleft & _ & _ & _ & -> & _).
  rewrite Hrd in Hrd'. injection Hrd' as <-.
  apply in_step_spec. eexists. split; [reflexivity|].
  cbn. repeat split; try assumption; try lia.
  rewrite Hc, <- Hi. unfold uint64. apply Z.mod_small.
  pose proof (int_range (LasHeader.NumberPoints (LazFile.Header lf))).
  lia.
Qed.

(** X4.  A handle that is in step with its reader stays so through any
    [LasPoint] that returns, and a failed read leaves such a handle
    exactly as it was. *)
Theorem LasPoint_keeps_in_step (C : laszip) (lf lf' : LazFile.t) (i : Z)
    (t t' : trace) (res : result LasPointer) :
  in_step lf = true ->
  LasPoint C lf i t = Returns (res, lf') t' ->
  in_step lf' = true
  /\ (is_ok res = false -> lf' = lf).
Proof.
  intros Hin H.
  destruct res as [p|msg].
  - split; [|discriminate].
    exact (in_step_after_read C lf lf' i t t' p Hin H).
  - pose proof (proj1 (in_step_spec lf) Hin) as (r & Hrd & _ & Hp & _).
    destruct (LasPoint_err_shape C _ _ _ _ _ _ H)
      as [-> | (r' & Hrd' & _ & Hp' & _)].
    + split; [exact Hin|reflexivity].
    + rewrite Hrd in Hrd'. injection Hrd' as <-. congruence.
Qed.

(** X4, witness: a failing read and a successful read on a fresh handle. *)
Lemma LasPoint_keeps_in_step_witness :
  in_step (healthy_handle 0 0) = true
  /\ in_step (healthy_handle 0 1) = true
  /\ (is_ok (@Err LasPointer "point index out of range") = false ->
      healthy_handle 0 0 = healthy_handle 0 0).
Proof.
  assert (Hin : in_step (healthy_handle 0 0) = true) by reflexivity.
  assert (Hok : exists p,
             LasPoint (healthy 0) (healthy_handle 0 0) 0 opening
             = Returns (Ok p, healthy_handle 0 1) (reading ++ opening)%list)
    by (eexists; cbv; reflexivity).
  destruct Hok as [p Hok].
  split; [exact Hin|]. split.
  - exact (proj1 (LasPoint_keeps_in_step (healthy 0) _ _ _ _ _ _ Hin Hok)).
  - exact (proj2 (LasPoint_keeps_in_step (healthy 0) (healthy_handle 0 0)
                    (healthy_handle 0 0) 10 opening opening
                    (Err "point index out of range") Hin eq_refl)).
Defined.

(** The native calls a run of [ReadPoint] adds. *)
Lemma ReadPoint_extends (C : laszip) (r r' : LaszipReader.t) (t t' : trace)
    (e : error) :
  ReadPoint C r t = Returns (e, r') t' ->
  t' = t
  \/ t' = laszip_read_point :: t
  \/ t' = laszip_get_error :: laszip_read_point :: t.
Proof.
  unfold ReadPoint.
  destruct (negb (LaszipReader.isOpen r)).
  { intros H. injection H as _ _ <-. left. reflexivity. }
  destruct (LaszipReader.pointCount r <=? LaszipReader.currentPoint r).
  { intros H. injection H as _ _ <-. left. reflexivity. }
  cbv beta iota zeta delta [bind call].
  destruct (negb (rc C t laszip_read_point =? 0)).
  - destruct (getError_run C r (laszip_read_point :: t)) as [m ->].
    intros H. injection H as _ _ <-. right. right. reflexivity.
  - intros H. injection H as _ _ <-. right. left. reflexivity.
Qed.

(** A run of [LasPoint] never takes a point read back. *)
Lemma LasPoint_reads_grow (C : laszip) (lf lf' : LazFile.t) (i : Z)
    (t t' : trace) (res : result LasPointer) :
  LasPoint C lf i t = Returns (res, lf') t' ->
  (calls is_read_point t <= calls is_read_point t')%nat.
Proof.
  intros H. unfold LasPoint in H.
  destruct ((i <? 0)
            || (int (LasHeader.NumberPoints (LazFile.Header lf)) <=? i)).
  { injection H as _ _ <-. lia. }
  destruct (negb (i =? LazFile.currentPoint lf)).
  { injection H as _ _ <-. lia. }
  destruct (LazFile.reader lf) as [r|]; [|discriminate H].
  cbv beta iota delta [bind] in H.
  destruct (ReadPoint_run C r t) as (e & r1 & t1 & Hrp & _).
  rewrite Hrp in H.
  assert (Ht1 : (calls is_read_point t <= calls is_read_point t1)%nat).
  { destruct (ReadPoint_extends C _ _ _ _ _ Hrp) as [-> | [-> | ->]];
      unfold calls; simpl; lia. }
  destruct e as [err|].
  { injection H as _ _ <-. exact Ht1. }
  destruct (GetPoint_run C r1 t1) as (lp & t2 & Hgp & Hn2 & _).
  rewrite Hgp in H.
  destruct lp as [lp|]; injection H as _ _ <-; lia.
Qed.

(** One more step of [reads]. *)
Lemma reads_cons (C : laszip) (lf : LazFile.t) (i : Z) (rest : list Z)
    (t : trace) :
  reads C lf (i :: rest) t
  = match LasPoint C lf i t with
    | Returns (p, lf1) t1 =>
        match reads C lf1 rest t1 with
        | Returns (ps, lf2) t2 => Returns (p :: ps, lf2) t2
        | Crashes t2 => Crashes t2
        end
    | Crashes t1 => Crashes t1
    end.
Proof.
  cbn [reads]. cbv beta iota delta [bind ret].
  destruct (LasPoint C lf i t) as [[p lf1] t1|t1]; [|reflexivity].
  destruct (reads C lf1 rest t1) as [[ps lf2] t2|t2]; reflexivity.
Qed.

(** X5.  Whatever indices are asked for, in whatever order, a run of
    reads gives one answer per index, leaves the header alone, and moves
    the cursor by exactly the number of points it returned; the decoder
    is asked for at least that many points and at most one per index. *)
Theorem reads_cursor_counts_points (C : laszip) (indices : list Z) :
  forall (lf lf' : LazFile.t) (t t' : trace)
         (ps : list (result LasPointer)),
    reads C lf indices t = Returns (ps, lf') t' ->
    List.length ps = List.length indices
    /\ LazFile.Header lf' = LazFile.Header lf
    /\ LazFile.currentPoint lf' = LazFile.currentPoint lf + count_ok ps
    /\ count_ok ps
       <= Z.of_nat (calls is_read_point t') - Z.of_nat (calls is_read_point t)
       <= Z.of_nat (List.length indices).
Proof.
  induction indices as [|i rest IH]; intros lf lf' t t' ps H.
  - cbv [reads ret] in H. injection H as <- <- <-.
    cbn. repeat split; lia.
  - rewrite reads_cons in H.
    destruct (LasPoint C lf i t) as [[p lf1] t1|t1] eqn:Hlas;
      [|discriminate H].
    destruct (reads C lf1 rest t1) as [[ps1 lf2] t2|t2] eqn:Hrest;
      [|discriminate H].
    injection H as <- <- <-.
    destruct (IH _ _ _ _ _ Hrest) as (Hlen & Hhdr & Hcur & Hlo & Hhi).
    destruct (LasPoint_returns C _ _ _ _ _ _ Hlas) as (Hhdr1 & Hn1 & Hres).
    destruct p as [p|msg].
    + destruct (LasPoint_ok_shape C _ _ _ _ _ _ Hlas)
        as (_ & Hi & r & lp & _ & _ & _ & _ & _ & Ht1 & _ & Hlf1 & _).
      assert (Hc1 : LazFile.currentPoint lf1 = LazFile.currentPoint lf + 1)
        by (rewrite Hlf1, Hi; reflexivity).
      assert (Hcalls : calls is_read_point t1
                       = S (calls is_read_point t))
        by (rewrite Ht1; reflexivity).
      cbn [List.length count_ok].
      repeat split; try congruence; lia.
    + pose proof (LasPoint_reads_grow C _ _ _ _ _ _ Hlas) as Hgrow.
      cbn in Hres. cbn [List.length count_ok].
      repeat split; try congruence; lia.
Qed.

(** X5, witness: seven requests on a fresh handle, of which the first six
    are in order. *)
Lemma reads_cursor_counts_points_witness :
  exists ps t',
    reads (healthy 0) (healthy_handle 0 0) [0; 1; 2; 3; 4; 5; 4] opening
    = Returns (ps, healthy_handle 0 6) t'
    /\ count_ok ps = 6
    /\ LazFile.currentPoint (healthy_handle 0 6)
       = LazFile.currentPoint (healthy_handle 0 0) + count_ok ps.
Proof.
  do 2 eexists.
  assert (H : reads (healthy 0) (healthy_handle 0 0) [0; 1; 2; 3; 4; 5; 4]
                opening = Returns (_, healthy_handle 0 6) _)
    by (cbv; reflexivity).
  split; [exact H|]. split; [reflexivity|].
  exact (proj1 (proj2 (proj2 (reads_cursor_counts_points (healthy 0) _ _ _
                                _ _ _ H)))).
Defined.

(** X6.  Sequential reading works: on a handle in step with its reader,
    with a decoder that accepts every read, asking in order for the next
    [n] indices from the cursor on, as long as they are in the file,
    returns [n] points, decodes exactly [n] points, and leaves the handle
    in step with the cursor [n] further. *)
Theorem reads_in_order (C : laszip) (n : nat) :
  forall (lf : LazFile.t) (t : trace),
    in_step lf = true ->
    (forall u, rc C u laszip_read_point = 0) ->
    LazFile.currentPoint lf + Z.of_nat n
    <= int (LasHeader.NumberPoints (LazFile.Header lf)) ->
    exists ps lf' t',
      reads C lf (indices_from (LazFile.currentPoint lf) n) t
      = Returns (ps, lf') t'
      /\ List.length ps = n
      /\ forallb is_ok ps = true
      /\ LazFile.currentPoint lf' = LazFile.currentPoint lf + Z.of_nat n
      /\ in_step lf' = true
      /\ calls is_read_point t' = (n + calls is_read_point t)%nat.
Proof.
  induction n as [|n IH]; intros lf t Hin Hrc Hfit.
  - exists [], lf, t. cbn. repeat split; try assumption; lia.
  - pose proof (proj1 (in_step_spec lf) Hin)
      as (r & Hrd & Ho & Hp & Hc & Hn & H0 & Hle).
    assert (Hrange : 0 <= LazFile.currentPoint lf
                     < int (LasHeader.NumberPoints (LazFile.Header lf)))
      by lia.
    destruct (LasPoint_ready C lf r (LazFile.currentPoint lf) t Hrange
                eq_refl Hrd Ho Hp ltac:(lia) (Hrc t))
      as (p & lf1 & t1 & Hlas).
    pose proof (in_step_after_read C _ _ _ _ _ _ Hin Hlas) as Hin1.
    destruct (LasPoint_returns C _ _ _ _ _ _ Hlas) as (Hhdr & _ & _).
    destruct (LasPoint_ok_shape C _ _ _ _ _ _ Hlas)
      as (_ & _ & r' & lp & _ & _ & _ & _ & _ & Ht1 & _ & Hlf1 & _).
    assert (Hc1 : LazFile.currentPoint lf1 = LazFile.currentPoint lf + 1)
      by (rewrite Hlf1; reflexivity).
    destruct (IH lf1 t1 Hin1 Hrc) as (ps & lf2 & t2 & Hrest & Hlen & Hall
                                      & Hcur & Hin2 & Hcalls).
    { rewrite Hhdr, Hc1. lia. }
    exists (Ok p :: ps), lf2, t2.
    cbn [indices_from]. rewrite reads_cons, Hlas, <- Hc1, Hrest.
    split; [reflexivity|]. cbn [List.length forallb is_ok andb].
    repeat split; try assumption; try lia.
    rewrite Hcalls, Ht1. unfold calls. simpl. lia.
Qed.

(** X6, witness: the ten points of a file, read from a fresh handle. *)
Lemma reads_in_order_witness :
  in_step (healthy_handle 0 0) = true
  /\ exists ps lf' t',
       reads (healthy 0) (healthy_handle 0 0) (indices_from 0 10) opening
       = Returns (ps, lf') t'
       /\ forallb is_ok ps = true
       /\ LazFile.currentPoint lf' = 10
       /\ calls is_read_point t' = 10%nat.
Proof.
  assert (Hin : in_step (healthy_handle 0 0) = true) by reflexivity.
  split; [exact Hin|].
  destruct (reads_in_order (healthy 0) 10 (healthy_handle 0 0) opening
              Hin (fun u => eq_refl))
    as (ps & lf' & t' & Hrun & _ & Hall & Hcur & _ & Hcalls).
  { vm_compute. discriminate. }
  exists ps, lf', t'. repeat split; assumption.
Defined.

(** * Further properties of opening and closing *)

(** The two modes [NewLazFile] lets through. *)
Lemma read_mode_spec (fileMode : string) :
  negb (fileMode =? "r")%string && negb (fileMode =? "rh")%string = false
  <-> fileMode = "r" \/ fileMode = "rh".
Proof.
  destruct (String.eqb_spec fileMode "r") as [-> | Hr]; cbn [negb andb].
  - split; [left; reflexivity | reflexivity].
  - destruct (String.eqb_spec fileMode "rh") as [-> | Hrh]; cbn [negb].
    + split; [right; reflexivity | reflexivity].
    + split; [discriminate | intros [? | ?]; contradiction].
Qed.

(** [NewLaszipReader] when [laszip_create] succeeds. *)
Lemma NewLaszipReader_created (C : laszip) (t : trace) :
  rc C t laszip_create = 0 ->
  NewLaszipReader C t
  = Returns (Ok (LaszipReader.with_pointer (pointer_out C (laszip_create :: t))
                   LaszipReader.zero))
            (laszip_create :: t).
Proof.
  intros Hrc. unfold NewLaszipReader, create.
  cbv beta iota zeta delta [bind call peek]. rewrite Hrc. reflexivity.
Qed.

(** [NewLaszipReader] when [laszip_create] fails: the message of the
    decoder is asked for only if a pointer came back. *)
Lemma NewLaszipReader_failed (C : laszip) (t : trace) :
  rc C t laszip_create <> 0 ->
  exists msg t',
    NewLaszipReader C t
    = Returns (Err ("failed to create LASzip pointer: " ++ msg)) t'
    /\ (t' = laszip_create :: t
        \/ t' = laszip_get_error :: laszip_create :: t).
Proof.
  intros Hrc. unfold NewLaszipReader, create.
  cbv beta iota zeta delta [bind call peek].
  destruct (Z.eqb_spec (rc C t laszip_create) 0) as [|_]; [contradiction|].
  cbn [negb LaszipReader.pointer LaszipReader.with_pointer].
  destruct (pointer_out C (laszip_create :: t)).
  - destruct (error_out C (laszip_get_error :: laszip_create :: t)) as [m|];
      cbv [ret]; do 2 eexists; (split; [reflexivity|right; reflexivity]).
  - cbv [ret]. do 2 eexists. split; [reflexivity|left; reflexivity].
Qed.

(** The exact shape of a successful [OpenReader]. *)
Lemma OpenReader_ok_shape (C : laszip) (r r1 : LaszipReader.t)
    (fileName : string) (t t1 : trace) :
  OpenReader C r fileName t = Returns (None, r1) t1 ->
  t1 = laszip_get_point_pointer :: laszip_get_header_pointer
       :: laszip_open_reader fileName :: t
  /\ r1 = LaszipReader.mk (LaszipReader.pointer r) true (point_out C t1) true
            (uint64 (laszip_header_struct.number_of_point_records
                       (header_mem C t1)))
            0.
Proof.
  unfold OpenReader.
  destruct (LaszipReader.isOpen r); [discriminate|].
  cbv beta iota zeta delta [bind call peek].
  destruct (negb (rc C t (laszip_open_reader fileName) =? 0)).
  { destruct (getError_run C r (laszip_open_reader fileName :: t)) as [m ->].
    discriminate. }
  set (t' := laszip_open_reader fileName :: t).
  destruct (negb (rc C t' laszip_get_header_pointer =? 0)).
  { match goal with |- context [getError C ?x ?y] =>
      destruct (getError_run C x y) as [m ->] end.
    discriminate. }
  set (t'' := laszip_get_header_pointer :: t').
  destruct (negb (rc C t'' laszip_get_point_pointer =? 0)).
  { match goal with |- context [getError C ?x ?y] =>
      destruct (getError_run C x y) as [m ->] end.
    discriminate. }
  cbn [LaszipReader.header LaszipReader.with_point LaszipReader.with_header].
  destruct (header_out C t''); cbn [negb]; [|discriminate].
  cbv [ret]. intros H. injection H as <- <-.
  subst t'' t'. split; reflexivity.
Qed.

Lemma uint32_range (x : Z) : 0 <= uint32 x < 2 ^ 32.
Proof.
  unfold uint32. apply Z.mod_pos_bound. lia.
Qed.

(** X7.  What a handle returned by [NewLazFile] looks like.  The mode was
    "r" or "rh"; exactly four native calls were made (create, open, header
    pointer, point pointer) and no point was decoded; the handle records
    the file name and mode, is marked compressed, has its cursor at 0 and
    the signature "LASF"; its point count is the decoder's, and its reader
    is open at point 0 with the same count.  If the decoder handed out a
    point structure, the handle is in step with its reader. *)
Theorem NewLazFile_handle_shape (C : laszip) (fileName fileMode : string)
    (t t' : trace) (lf : LazFile.t) :
  NewLazFile C fileName fileMode t = Returns (Ok lf) t' ->
  (fileMode = "r" \/ fileMode = "rh")
  /\ t' = laszip_get_point_pointer :: laszip_get_header_pointer
          :: laszip_open_reader fileName :: laszip_create :: t
  /\ LazFile.fileName lf = fileName
  /\ LazFile.fileMode lf = fileMode
  /\ IsCompressed lf = true
  /\ LazFile.currentPoint lf = 0
  /\ LasHeader.FileSignature (LazFile.Header lf) = "LASF"
  /\ GetPointCount lf
     = uint32 (laszip_header_struct.number_of_point_records (header_mem C t'))
  /\ (exists r,
         LazFile.reader lf = Some r
         /\ LaszipReader.isOpen r = true
         /\ LaszipReader.currentPoint r = 0
         /\ LaszipReader.pointCount r
            = uint64 (laszip_header_struct.number_of_point_records
                        (header_mem C t')))
  /\ (point_out C t' = true ->
      0 <= laszip_header_struct.number_of_point_records (header_mem C t')
        < 2 ^ 32 ->
      in_step lf = true).
Proof.
  intros H. unfold NewLazFile in H.
  destruct (negb (fileMode =? "r")%string && negb (fileMode =? "rh")%string)
    eqn:Hm; [discriminate H|].
  apply read_mode_spec in Hm.
  cbv beta iota zeta delta [bind] in H.
  destruct (Z.eq_dec (rc C t laszip_create) 0) as [Hrc|Hrc].
  2:{ destruct (NewLaszipReader_failed C t Hrc) as (m & u & Hnew & _).
      rewrite Hnew in H. discriminate H. }
  rewrite (NewLaszipReader_created C t Hrc) in H.
  match type of H with
  | context [OpenReader C ?r0 fileName ?u] =>
      destruct (OpenReader C r0 fileName u) as [[[err|] r1] t1|t1] eqn:Hop
  end; try discriminate H.
  destruct (OpenReader_ok_shape C _ _ _ _ _ Hop) as (Ht1 & Hr1).
  unfold convertHeader, GetHeader in H. rewrite Hr1 in H.
  cbn [LazFile.reader LazFile.with_reader LaszipReader.isOpen
       LaszipReader.header negb orb] in H.
  cbv beta iota zeta delta [bind peek ret] in H.
  injection H as <- <-.
  split; [exact Hm|]. split; [exact Ht1|].
  cbn. repeat split.
  - unfold GetPointCount. cbn. unfold byte.
    rewrite int_small.
    + unfold uint32. apply Z.mod_mod. lia.
    + pose proof (uint32_range (laszip_header_struct.number_of_point_records
                                  (header_mem C t1))). lia.
  - eexists. split; [reflexivity|]. cbn. repeat split.
  - intros Hpt Hn. rewrite Hpt.
    assert (Hu32 : uint32 (laszip_header_struct.number_of_point_records
                             (header_mem C t1))
                   = laszip_header_struct.number_of_point_records
                       (header_mem C t1))
      by (unfold uint32; apply Z.mod_small; lia).
    assert (Hu64 : uint64 (laszip_header_struct.number_of_point_records
                             (header_mem C t1))
                   = laszip_header_struct.number_of_point_records
                       (header_mem C t1))
      by (unfold uint64; apply Z.mod_small; lia).
    assert (Hint : int (laszip_header_struct.number_of_point_records
                          (header_mem C t1))
                   = laszip_header_struct.number_of_point_records
                       (header_mem C t1))
      by (apply int_small; lia).
    rewrite Hu32, Hu64, !Hint, Z.eqb_refl. cbn [andb].
    apply Z.leb_le. lia.
Qed.

(** X7, witness: the handle opened on a working decoder. *)
Lemma NewLazFile_handle_shape_witness :
  NewLazFile (healthy 0) "cloud.laz" "r" []
  = Returns (Ok (healthy_handle 0 0)) opening
  /\ GetPointCount (healthy_handle 0 0) = 10
  /\ IsCompressed (healthy_handle 0 0) = true
  /\ in_step (healthy_handle 0 0) = true.
Proof.
  assert (H : NewLazFile (healthy 0) "cloud.laz" "r" []
              = Returns (Ok (healthy_handle 0 0)) opening) by reflexivity.
  destruct (NewLazFile_handle_shape (healthy 0) _ _ _ _ _ H)
    as (_ & _ & _ & _ & Hz & _ & _ & Hcount & _ & Hstep).
  split; [exact H|]. split; [exact Hcount|]. split; [exact Hz|].
  apply Hstep; [reflexivity|]. vm_compute. split; [discriminate|reflexivity].
Defined.

(** X8.  Any mode other than "r" and "rh" is refused before the decoder
    is touched: the error is "LAZ files only support read mode" and no
    native call is made. *)
Theorem NewLazFile_rejects_mode (C : laszip) (fileName fileMode : string)
    (t : trace) :
  fileMode <> "r" ->
  fileMode <> "rh" ->
  NewLazFile C fileName fileMode t
  = Returns (Err "LAZ files only support read mode") t.
Proof.
  intros Hr Hrh. unfold NewLazFile.
  destruct (negb (fileMode =? "r")%string && negb (fileMode =? "rh")%string)
    eqn:Hm; [reflexivity|].
  apply read_mode_spec in Hm. destruct Hm; contradiction.
Qed.

(** X8, witness: write mode. *)
Lemma NewLazFile_rejects_mode_witness :
  "w" <> "r" /\ "w" <> "rh"
  /\ NewLazFile (healthy 0) "cloud.laz" "w" []
     = Returns (Err "LAZ files only support read mode") [].
Proof.
  assert (Hr : "w" <> "r") by discriminate.
  assert (Hrh : "w" <> "rh") by discriminate.
  split; [exact Hr|]. split; [exact Hrh|].
  exact (NewLazFile_rejects_mode (healthy 0) "cloud.laz" "w" [] Hr Hrh).
Defined.



(** X10.  [NewLazFile] never closes and never destroys the decoder: on
    every path, be it a handle, an error or a crash, the trace holds as
    many [laszip_close_reader] and [laszip_destroy] calls after the run as
    before.  In particular the [reader.Close()] of the "failed to convert
    header" branch is never run: a reader that [OpenReader] left open
    always yields a header. *)
Theorem NewLazFile_never_releases (C : laszip) (fileName fileMode : string)
    (t : trace) :
  calls is_close_reader (trace_of (NewLazFile C fileName fileMode t))
  = calls is_close_reader t
  /\ calls is_destroy (trace_of (NewLazFile C fileName fileMode t))
     = calls is_destroy t.
Proof.
  unfold NewLazFile.
  destruct (negb (fileMode =? "r")%string && negb (fileMode =? "rh")%string).
  { split; reflexivity. }
  cbv beta iota zeta delta [bind].
  destruct (Z.eq_dec (rc C t laszip_create) 0) as [Hrc|Hrc].
  2:{ destruct (NewLaszipReader_failed C t Hrc) as (m & u & -> & [-> | ->]);
        split; reflexivity. }
  rewrite (NewLaszipReader_created C t Hrc).
  match goal with
  | |- context [OpenReader C ?r0 fileName ?u] =>
      pose proof (OpenReader_releases_nothing C r0 fileName u) as [Hc Hd];
      destruct (OpenReader C r0 fileName u) as [[[err|] r1] t1|t1] eqn:Hop
  end.
  - split; [exact Hc|exact Hd].
  - destruct (OpenReader_opened C _ _ _ _ _ Hop) as (Ho & Hh & _).
    destruct (convertHeader_open C
                (LazFile.with_reader (Some r1)
                   (LazFile.mk fileName fileMode None LasHeader.zero true 0))
                r1 t1 eq_refl Ho Hh) as (lf & Hconv & _).
    rewrite Hconv. split; [exact Hc|exact Hd].
  - split; [exact Hc|exact Hd].
Qed.

(** X11.  A reader cannot be opened twice: once [OpenReader] has
    succeeded, any further [OpenReader], on any file, fails with "reader
    already open" without a native call and leaves the reader as it is. *)
Theorem OpenReader_twice (C : laszip) (r r1 : LaszipReader.t)
    (fileName : string) (t t1 : trace) :
  OpenReader C r fileName t = Returns (None, r1) t1 ->
  forall (other : string) (u : trace),
    OpenReader C r1 other u = Returns (Some "reader already open", r1) u.
Proof.
  intros H other u.
  destruct (OpenReader_opened C _ _ _ _ _ H) as (Ho & _).
  unfold OpenReader. rewrite Ho. reflexivity.
Qed.

(** X11, witness: opening again the reader of a fresh handle. *)
Lemma OpenReader_twice_witness :
  OpenReader (healthy 0) (LaszipReader.with_pointer true LaszipReader.zero)
    "cloud.laz" [laszip_create]
  = Returns (None, sample_reader 0) opening
  /\ OpenReader (healthy 0) (sample_reader 0) "other.laz" opening
     = Returns (Some "reader already open", sample_reader 0) opening.
Proof.
  assert (H : OpenReader (healthy 0)
                (LaszipReader.with_pointer true LaszipReader.zero)
                "cloud.laz" [laszip_create]
              = Returns (None, sample_reader 0) opening) by reflexivity.
  split; [exact H|].
  exact (OpenReader_twice (healthy 0) _ _ _ _ _ H "other.laz" opening).
Defined.



(** X13.  When the decoder refuses to close, [Close] returns the decoder's
    message (or "unknown LASzip error" if it has none), does not go on to
    destroy the decoder, and leaves the handle as it was, reader still
    marked open. *)
Theorem Close_reports_failed_close (C : laszip) (lf : LazFile.t)
    (r : LaszipReader.t) (t : trace) :
  LazFile.reader lf = Some r ->
  LaszipReader.isOpen r = true ->
  rc C t laszip_close_reader <> 0 ->
  Close C lf t
  = Returns
      (Some match error_out C (laszip_get_error :: laszip_close_reader :: t)
            with
            | Some msg => msg
            | None => "unknown LASzip error"
            end, lf)
      (laszip_get_error :: laszip_close_reader :: t).
Proof.
  intros Hrd Ho Hrc. unfold Close, Reader_Close, getError.
  rewrite Hrd, Ho. cbv beta iota zeta delta [bind call peek negb].
  destruct (Z.eqb_spec (rc C t laszip_close_reader) 0) as [|_];
    [contradiction|].
  destruct (error_out C (laszip_get_error :: laszip_close_reader :: t));
    cbv [ret]; rewrite (with_reader_same lf r Hrd); reflexivity.
Qed.

(** X13, witness: a decoder that cannot be closed. *)
Lemma Close_reports_failed_close_witness :
  rc unclosable opening laszip_close_reader <> 0
  /\ Close unclosable (plain_handle 0) opening
     = Returns (Some "laszip: failure", plain_handle 0)
               (laszip_get_error :: laszip_close_reader :: opening).
Proof.
  assert (Hrc : rc unclosable opening laszip_close_reader <> 0)
    by (vm_compute; discriminate).
  split; [exact Hrc|].
  exact (Close_reports_failed_close unclosable (plain_handle 0)
           (sample_reader 0) opening eq_refl eq_refl Hrc).
Defined.

(** X14.  The layout of the packed return byte.  For a return number and
    a number of returns below 8 and two flags that are 0 or 1, the byte
    [convertPoint] stores holds the return number in bits 0-2, the number
    of returns in bits 3-5, the scan direction flag in bit 6 and the edge
    of flight line flag in bit 7, so the four fields can be read back. *)
Theorem convertPoint_return_byte_layout (lf : LazFile.t)
    (lp : LaszipPoint.t) :
  0 <= LaszipPoint.ReturnNumber lp < 8 ->
  0 <= LaszipPoint.NumberOfReturns lp < 8 ->
  0 <= LaszipPoint.ScanDirectionFlag lp < 2 ->
  0 <= LaszipPoint.EdgeOfFlightFlag lp < 2 ->
  let v := PointBitField.Value
             (PointRecord0.BitField (PointData (convertPoint lf lp))) in
  v = LaszipPoint.ReturnNumber lp + 8 * LaszipPoint.NumberOfReturns lp
      + 64 * LaszipPoint.ScanDirectionFlag lp
      + 128 * LaszipPoint.EdgeOfFlightFlag lp
  /\ Z.land v 7 = LaszipPoint.ReturnNumber lp
  /\ Z.land (Z.shiftr v 3) 7 = LaszipPoint.NumberOfReturns lp
  /\ Z.land (Z.shiftr v 6) 1 = LaszipPoint.ScanDirectionFlag lp
  /\ Z.land (Z.shiftr v 7) 1 = LaszipPoint.EdgeOfFlightFlag lp.
Proof.
  intros Hrn Hnr Hsd Hef v. subst v.
  rewrite convertPoint_return_byte.
  destruct lp as [x y z intensity rn nr sd ef cl sa ud ps gps].
  cbn [LaszipPoint.ReturnNumber LaszipPoint.NumberOfReturns
       LaszipPoint.ScanDirectionFlag LaszipPoint.EdgeOfFlightFlag] in *.
  assert (Ern : rn = 0 \/ rn = 1 \/ rn = 2 \/ rn = 3
                \/ rn = 4 \/ rn = 5 \/ rn = 6 \/ rn = 7) by lia.
  assert (Enr : nr = 0 \/ nr = 1 \/ nr = 2 \/ nr = 3
                \/ nr = 4 \/ nr = 5 \/ nr = 6 \/ nr = 7) by lia.
  assert (Esd : sd = 0 \/ sd = 1) by lia.
  assert (Eef : ef = 0 \/ ef = 1) by lia.
  clear Hrn Hnr Hsd Hef.
  destruct Esd as [-> | ->]; destruct Eef as [-> | ->];
    destruct Ern as [-> | [-> | [-> | [-> | [-> | [-> | [-> | ->]]]]]]];
    destruct Enr as [-> | [-> | [-> | [-> | [-> | [-> | [-> | ->]]]]]]];
    repeat split.
Qed.

(** X14, witness: second of three returns, at the edge of a flight line. *)
Lemma convertPoint_return_byte_layout_witness :
  let lp := LaszipPoint.mk 0 0 0 0 2 3 0 1 0 0 0 0 0 in
  PointBitField.Value
    (PointRecord0.BitField (PointData (convertPoint (healthy_handle 0 0) lp)))
  = 2 + 8 * 3 + 64 * 0 + 128 * 1.
Proof.
  intros lp.
  refine (proj1 (convertPoint_return_byte_layout (healthy_handle 0 0) lp
                   _ _ _ _));
    vm_compute; split; (discriminate || reflexivity).
Defined.

(** * Properties of file detection *)

(** The test both detectors make on what [Read] delivered: four bytes
    were stored and they spell "LASF". *)
Lemma signature_check (data : string) :
  (if negb (Nat.min (String.length (make_bytes 4)) (String.length data)
            =? 4)%nat
   then false
   else (fill (make_bytes 4) data =? "LASF")%string)
  = (substring 0 4 data =? "LASF")%string.
Proof.
  destruct data as [|a [|b [|c [|d rest]]]]; cbn;
    repeat match goal with
           | |- context [Ascii.eqb ?x ?y] => destruct (Ascii.eqb x y)
           end;
    try reflexivity.
  destruct rest; reflexivity.
Qed.

(** What one detector answers and asks of the operating system. *)
Lemma isLazFile_run (Ext ToLower : string -> string) (OS : os)
    (filename : string) (t : os_trace) :
  isLazFile Ext ToLower OS filename t
  = if negb (ToLower (Ext filename) =? ".laz")%string then (false, t)
    else if negb (open_ok OS t filename)
    then (false, os_Open filename false :: t)
    else (negb (snd (read_out OS (os_Open filename true :: t) filename))
          && (substring 0 4
                (fst (read_out OS (os_Open filename true :: t) filename))
              =? "LASF")%string,
          file_Close filename :: file_Read filename
          :: os_Open filename true :: t).
Proof.
  unfold isLazFile.
  destruct (negb (ToLower (Ext filename) =? ".laz")%string); [reflexivity|].
  destruct (negb (open_ok OS t filename)); [reflexivity|].
  destruct (read_out OS (os_Open filename true :: t) filename) as [data err].
  cbn [fst snd]. rewrite <- signature_check.
  destruct err; cbn [orb negb andb]; [reflexivity|].
  destruct (negb (Nat.min (String.length (make_bytes 4)) (String.length data)
                  =? 4)%nat); reflexivity.
Qed.

Lemma isLasFile_run (Ext ToLower : string -> string) (OS : os)
    (filename : string) (t : os_trace) :
  isLasFile Ext ToLower OS filename t
  = if negb (ToLower (Ext filename) =? ".las")%string then (false, t)
    else if negb (open_ok OS t filename)
    then (false, os_Open filename false :: t)
    else (negb (snd (read_out OS (os_Open filename true :: t) filename))
          && (substring 0 4
                (fst (read_out OS (os_Open filename true :: t) filename))
              =? "LASF")%string,
          file_Close filename :: file_Read filename
          :: os_Open filename true :: t).
Proof.
  unfold isLasFile.
  destruct (negb (ToLower (Ext filename) =? ".las")%string); [reflexivity|].
  destruct (negb (open_ok OS t filename)); [reflexivity|].
  destruct (read_out OS (os_Open filename true :: t) filename) as [data err].
  cbn [fst snd]. rewrite <- signature_check.
  destruct err; cbn [orb negb andb]; [reflexivity|].
  destruct (negb (Nat.min (String.length (make_bytes 4)) (String.length data)
                  =? 4)%nat); reflexivity.
Qed.

(** X15.  What [GetFileType] answers.  A file is "LAZ" when its lowered
    extension is ".laz", "LAS" when it is ".las", provided in both cases
    that the file opens and its first read gives, without error, four
    bytes spelling "LASF"; everything else is "UNKNOWN": another
    extension, a file that does not open, a failed or short read, other
    leading bytes.  The bytes after the fourth play no part. *)
Theorem GetFileType_kinds (Ext ToLower : string -> string) (OS : os)
    (filename : string) (t : os_trace) :
  let ext := ToLower (Ext filename) in
  let data := fst (read_out OS (os_Open filename true :: t) filename) in
  let err := snd (read_out OS (os_Open filename true :: t) filename) in
  let magic :=
    open_ok OS t filename && negb err
    && (substring 0 4 data =? "LASF")%string in
  fst (GetFileType Ext ToLower OS filename t)
  = if (ext =? ".laz")%string && magic then "LAZ"
    else if (ext =? ".las")%string && magic then "LAS"
    else "UNKNOWN".
Proof.
  intros ext data err magic. subst magic err data.
  unfold GetFileType. rewrite isLazFile_run. fold ext.
  destruct (String.eqb_spec ext ".laz") as [Hlaz|Hlaz]; cbn [negb andb].
  - destruct (open_ok OS t filename); cbn [negb andb].
    + destruct (negb (snd (read_out OS (os_Open filename true :: t) filename))
                && (substring 0 4
                      (fst (read_out OS (os_Open filename true :: t)
                              filename)) =? "LASF")%string);
        [reflexivity|].
      rewrite isLasFile_run. fold ext. rewrite Hlaz. reflexivity.
    + rewrite isLasFile_run. fold ext. rewrite Hlaz. reflexivity.
  - rewrite isLasFile_run. fold ext.
    destruct (String.eqb_spec ext ".las") as [Hlas|Hlas]; cbn [negb andb];
      [|reflexivity].
    destruct (open_ok OS t filename); cbn [negb andb]; [|reflexivity].
    destruct (negb (snd (read_out OS (os_Open filename true :: t) filename))
              && (substring 0 4
                    (fst (read_out OS (os_Open filename true :: t)
                            filename)) =? "LASF")%string);
      reflexivity.
Qed.

(** X16.  What [GetFileType] asks of the operating system.  A name whose
    lowered extension is neither ".laz" nor ".las" causes no call at all.
    Otherwise the file is opened once; if that fails nothing else is
    done, and if it succeeds the file is read once and closed.  So every
    file the detection opens it also closes. *)
Theorem GetFileType_os_calls (Ext ToLower : string -> string) (OS : os)
    (filename : string) (t : os_trace) :
  let ext := ToLower (Ext filename) in
  let t' := snd (GetFileType Ext ToLower OS filename t) in
  (t' = if (ext =? ".laz")%string || (ext =? ".las")%string
        then if open_ok OS t filename
             then file_Close filename :: file_Read filename
                  :: os_Open filename true :: t
             else os_Open filename false :: t
        else t)
  /\ (opened t' + closed t = opened t + closed t')%nat.
Proof.
  intros ext t'. subst t'.
  assert (Hshape :
            snd (GetFileType Ext ToLower OS filename t)
            = if (ext =? ".laz")%string || (ext =? ".las")%string
              then if open_ok OS t filename
                   then file_Close filename :: file_Read filename
                        :: os_Open filename true :: t
                   else os_Open filename false :: t
              else t).
  { unfold GetFileType. rewrite isLazFile_run. fold ext.
    destruct (String.eqb_spec ext ".laz") as [Hlaz|Hlaz]; cbn [negb orb].
    - destruct (open_ok OS t filename); cbn [negb].
      + destruct (negb (snd (read_out OS (os_Open filename true :: t)
                               filename))
                  && (substring 0 4
                        (fst (read_out OS (os_Open filename true :: t)
                                filename)) =? "LASF")%string);
          [reflexivity|].
        rewrite isLasFile_run. fold ext. rewrite Hlaz. reflexivity.
      + rewrite isLasFile_run. fold ext. rewrite Hlaz. reflexivity.
    - rewrite isLasFile_run. fold ext.
      destruct (String.eqb_spec ext ".las") as [Hlas|Hlas]; cbn [negb];
        [|reflexivity].
      destruct (open_ok OS t filename); cbn [negb]; [|reflexivity].
      destruct (negb (snd (read_out OS (os_Open filename true :: t)
                             filename))
                && (substring 0 4
                      (fst (read_out OS (os_Open filename true :: t)
                              filename)) =? "LASF")%string);
        reflexivity. }
  split; [exact Hshape|].
  rewrite Hshape.
  destruct ((ext =? ".laz")%string || (ext =? ".las")%string);
    [|reflexivity].
  destruct (open_ok OS t filename); unfold opened, closed; simpl; lia.
Qed.

(** X15, witness: the three files of the sample disk and a missing one. *)
Lemma GetFileType_kinds_witness :
  fst (GetFileType Ext_slash ToLower_ascii sample_disk
         "data/cloud.copc.LAZ" []) = "LAZ"
  /\ fst (GetFileType Ext_slash ToLower_ascii sample_disk
            "data/notes.las" []) = "UNKNOWN"
  /\ fst (GetFileType Ext_slash ToLower_ascii sample_disk
            "data/short.laz" []) = "UNKNOWN"
  /\ fst (GetFileType Ext_slash ToLower_ascii sample_disk
            "nonexistent.txt" []) = "UNKNOWN".
Proof.
  refine (conj _ (conj _ (conj _ _)));
    match goal with
    | |- fst (GetFileType ?e ?l ?o ?f ?t) = _ =>
        exact (eq_trans (GetFileType_kinds e l o f t) eq_refl)
    end.
Defined.

(** * Crashes *)

(** [LaszipReader.Close] always returns. *)
Lemma Reader_Close_returns (C : laszip) (r : LaszipReader.t) (t : trace) :
  exists e r' t', Reader_Close C r t = Returns (e, r') t'.
Proof.
  unfold Reader_Close.
  destruct (negb (LaszipReader.isOpen r)); [do 3 eexists; reflexivity|].
  cbv beta iota zeta delta [bind call].
  destruct (negb (rc C t laszip_close_reader =? 0)).
  { destruct (getError_run C r (laszip_close_reader :: t)) as [m ->].
    do 3 eexists. reflexivity. }
  destruct (negb (rc C (laszip_close_reader :: t) laszip_destroy =? 0)).
  { destruct (getError_run C r (laszip_destroy :: laszip_close_reader :: t))
      as [m ->].
    do 3 eexists. reflexivity. }
  do 3 eexists. reflexivity.
Qed.

(** On a handle that holds a reader, [LasPoint] returns, and the handle
    still holds a reader. *)
Lemma LasPoint_returns_with_reader (C : laszip) (lf : LazFile.t)
    (r : LaszipReader.t) (i : Z) (t : trace) :
  LazFile.reader lf = Some r ->
  exists res lf' t' r',
    LasPoint C lf i t = Returns (res, lf') t'
    /\ LazFile.reader lf' = Some r'.
Proof.
  intros Hrd. unfold LasPoint.
  destruct ((i <? 0)
            || (int (LasHeader.NumberPoints (LazFile.Header lf)) <=? i)).
  { do 4 eexists. split; [reflexivity|exact Hrd]. }
  destruct (negb (i =? LazFile.currentPoint lf)).
  { do 4 eexists. split; [reflexivity|exact Hrd]. }
  rewrite Hrd. cbv beta iota delta [bind].
  destruct (ReadPoint_run C r t) as (e & r1 & t1 & -> & _).
  destruct e as [err|].
  { do 4 eexists. split; reflexivity. }
  destruct (GetPoint_run C r1 t1) as (lp & t2 & -> & _).
  destruct lp as [lp|]; do 4 eexists; split; reflexivity.
Qed.

(** X17.  No panic on a handle that holds a reader: any run of reads, in
    any order and at any indices, returns and leaves a handle that still
    holds a reader, and [Close] returns as well.  ([LasPoint] reaches the
    reader only after its two index tests, and the reader's methods test
    their pointers before they use them.) *)
Theorem reads_never_crash (C : laszip) (indices : list Z) :
  forall (lf : LazFile.t) (t : trace),
    LazFile.reader lf <> None ->
    (exists ps lf' t',
        reads C lf indices t = Returns (ps, lf') t'
        /\ LazFile.reader lf' <> None)
    /\ (exists e lf' t', Close C lf t = Returns (e, lf') t').
Proof.
  induction indices as [|i rest IH]; intros lf t Hrd.
  - split.
    + exists [], lf, t. split; [reflexivity|exact Hrd].
    + unfold Close. destruct (LazFile.reader lf) as [r|]; [|contradiction].
      cbv beta iota delta [bind].
      destruct (Reader_Close_returns C r t) as (e & r' & t' & ->).
      do 3 eexists. reflexivity.
  - split.
    + destruct (LazFile.reader lf) as [r|] eqn:Hr; [|contradiction].
      destruct (LasPoint_returns_with_reader C lf r i t Hr)
        as (res & lf1 & t1 & r1 & Hlas & Hr1).
      destruct (IH lf1 t1) as [(ps & lf2 & t2 & Hrest & Hr2) _].
      { rewrite Hr1. discriminate. }
      exists (res :: ps), lf2, t2.
      rewrite reads_cons, Hlas, Hrest. split; [reflexivity|exact Hr2].
    + exact (proj2 (IH lf t Hrd)).
Qed.

(** X17, witness: requests in disorder on a decoder that decodes
    nothing. *)
Lemma reads_never_crash_witness :
  LazFile.reader (plain_handle 0) <> None
  /\ exists ps lf' t',
       reads unreadable (plain_handle 0) [3; 0; -1; 0; 12] opening
       = Returns (ps, lf') t'.
Proof.
  assert (Hrd : LazFile.reader (plain_handle 0) <> None) by discriminate.
  split; [exact Hrd|].
  destruct (reads_never_crash unreadable [3; 0; -1; 0; 12] (plain_handle 0)
              opening Hrd) as [(ps & lf' & t' & Hrun & _) _].
  exists ps, lf', t'. exact Hrun.
Defined.

(** When [OpenReader] crashes. *)
Lemma OpenReader_crash_iff (C : laszip) (r : LaszipReader.t)
    (fileName : string) (t t' : trace) :
  OpenReader C r fileName t = Crashes t'
  <-> LaszipReader.isOpen r = false
      /\ rc C t (laszip_open_reader fileName) = 0
      /\ rc C (laszip_open_reader fileName :: t) laszip_get_header_pointer = 0
      /\ rc C (laszip_get_header_pointer :: laszip_open_reader fileName :: t)
            laszip_get_point_pointer = 0
      /\ header_out C (laszip_get_header_pointer
                       :: laszip_open_reader fileName :: t) = false
      /\ t' = laszip_get_point_pointer :: laszip_get_header_pointer
              :: laszip_open_reader fileName :: t.
Proof.
  unfold OpenReader.
  destruct (LaszipReader.isOpen r).
  { split; [discriminate|]. intros (H & _). discriminate H. }
  cbv beta iota zeta delta [bind call peek].
  destruct (Z.eqb_spec (rc C t (laszip_open_reader fileName)) 0)
    as [H1|H1]; cbn [negb].
  2:{ destruct (getError_run C r (laszip_open_reader fileName :: t))
        as [m ->].
      split; [discriminate|]. intros (_ & H & _). contradiction. }
  destruct (Z.eqb_spec (rc C (laszip_open_reader fileName :: t)
                          laszip_get_header_pointer) 0)
    as [H2|H2]; cbn [negb].
  2:{ match goal with |- context [getError C ?x ?y] =>
        destruct (getError_run C x y) as [m ->] end.
      split; [discriminate|]. intros (_ & _ & H & _). contradiction. }
  destruct (Z.eqb_spec (rc C (laszip_get_header_pointer
                              :: laszip_open_reader fileName :: t)
                          laszip_get_point_pointer) 0)
    as [H3|H3]; cbn [negb].
  2:{ match goal with |- context [getError C ?x ?y] =>
        destruct (getError_run C x y) as [m ->] end.
      split; [discriminate|]. intros (_ & _ & _ & H & _). contradiction. }
  cbn [LaszipReader.header LaszipReader.with_point LaszipReader.with_header].
  destruct (header_out C (laszip_get_header_pointer
                          :: laszip_open_reader fileName :: t));
    cbn [negb].
  - split; [discriminate|]. intros (_ & _ & _ & _ & H & _). discriminate H.
  - cbv [crash]. split.
    + intros H. injection H as <-. repeat split; assumption.
    + intros (_ & _ & _ & _ & _ & ->). reflexivity.
Qed.

(** X18.  The one way for [NewLazFile] to panic: the mode is accepted,
    the four native calls of opening all report success, and yet the
    header pointer the decoder handed out is NULL.  With a decoder that
    never does that, [NewLazFile] always returns. *)
Theorem NewLazFile_crash_iff (C : laszip) (fileName fileMode : string)
    (t t' : trace) :
  NewLazFile C fileName fileMode t = Crashes t'
  <-> (fileMode = "r" \/ fileMode = "rh")
      /\ rc C t laszip_create = 0
      /\ rc C (laszip_create :: t) (laszip_open_reader fileName) = 0
      /\ rc C (laszip_open_reader fileName :: laszip_create :: t)
            laszip_get_header_pointer = 0
      /\ rc C (laszip_get_header_pointer :: laszip_open_reader fileName
               :: laszip_create :: t) laszip_get_point_pointer = 0
      /\ header_out C (laszip_get_header_pointer
                       :: laszip_open_reader fileName :: laszip_create :: t)
         = false
      /\ t' = laszip_get_point_pointer :: laszip_get_header_pointer
              :: laszip_open_reader fileName :: laszip_create :: t.
Proof.
  unfold NewLazFile.
  destruct (negb (fileMode =? "r")%string && negb (fileMode =? "rh")%string)
    eqn:Hm.
  { split; [discriminate|]. intros (H & _).
    apply read_mode_spec in H. congruence. }
  apply read_mode_spec in Hm.
  cbv beta iota zeta delta [bind].
  destruct (Z.eq_dec (rc C t laszip_create) 0) as [Hrc|Hrc].
  2:{ destruct (NewLaszipReader_failed C t Hrc) as (m & u & -> & _).
      split; [discriminate|]. intros (_ & H & _). contradiction. }
  rewrite (NewLaszipReader_created C t Hrc).
  match goal with
  | |- context [OpenReader C ?r0 fileName ?u] =>
      pose proof (OpenReader_crash_iff C r0 fileName u) as Hcrash;
      destruct (OpenReader C r0 fileName u) as [[[err|] r1] t1|t1] eqn:Hop
  end.
  - split; [discriminate|].
    intros (_ & _ & H1 & H2 & H3 & H4 & ->).
    assert (Hc : Returns (Some err, r1) t1
                 = Crashes (laszip_get_point_pointer
                            :: laszip_get_header_pointer
                            :: laszip_open_reader fileName
                            :: laszip_create :: t))
      by (apply Hcrash; repeat split; assumption).
    discriminate Hc.
  - destruct (OpenReader_opened C _ _ _ _ _ Hop) as (Ho & Hh & _).
    destruct (convertHeader_open C
                (LazFile.with_reader (Some r1)
                   (LazFile.mk fileName fileMode None LasHeader.zero true 0))
                r1 t1 eq_refl Ho Hh) as (lf & -> & _).
    split; [discriminate|].
    intros (_ & _ & H1 & H2 & H3 & H4 & ->).
    assert (Hc : Returns (None, r1) t1
                 = Crashes (laszip_get_point_pointer
                            :: laszip_get_header_pointer
                            :: laszip_open_reader fileName
                            :: laszip_create :: t))
      by (apply Hcrash; repeat split; assumption).
    discriminate Hc.
  - split.
    + intros H. injection H as <-.
      destruct (proj1 (Hcrash t1) eq_refl) as (_ & H1 & H2 & H3 & H4 & H5).
      repeat split; assumption.
    + intros (_ & _ & H1 & H2 & H3 & H4 & ->).
      assert (Hc : Crashes t1
                   = Crashes (laszip_get_point_pointer
                              :: laszip_get_header_pointer
                              :: laszip_open_reader fileName
                              :: laszip_create :: t))
        by (apply Hcrash; repeat split; assumption).
      injection Hc as ->. reflexivity.
Qed.

(** X18, witness: the decoder with a NULL header pointer. *)
Lemma NewLazFile_crash_iff_witness :
  NewLazFile headless "cloud.laz" "r" [] = Crashes opening.
Proof.
  apply (proj2 (NewLazFile_crash_iff headless "cloud.laz" "r" [] opening)).
  split; [left; reflexivity|]. repeat split.
Defined.

(** * The header of an opened handle *)

Lemma uint8_range (x : Z) : 0 <= uint8 x < 2 ^ 8.
Proof.
  unfold uint8. apply Z.mod_pos_bound. lia.
Qed.

Lemma uint16_range (x : Z) : 0 <= uint16 x < 2 ^ 16.
Proof.
  unfold uint16. apply Z.mod_pos_bound. lia.
Qed.

(** X19.  The header of a handle returned by [NewLazFile].  Its version,
    point format, header size, record length, offset to the points,
    number of variable length records and number of points are
    non-negative and fit the unsigned width the decoder stores them in,
    so [GetPointCount] is the number of points without loss.  The fields
    the LAZ backend does not read stay empty: file source, project
    identifiers, system and software names, creation date are zero or
    empty, and the five counts of points by return are all zero. *)
Theorem NewLazFile_header_fields (C : laszip) (fileName fileMode : string)
    (t t' : trace) (lf : LazFile.t) :
  NewLazFile C fileName fileMode t = Returns (Ok lf) t' ->
  let h := LazFile.Header lf in
  (0 <= LasHeader.VersionMajor h < 2 ^ 8
   /\ 0 <= LasHeader.VersionMinor h < 2 ^ 8
   /\ 0 <= LasHeader.PointFormatID h < 2 ^ 8
   /\ 0 <= LasHeader.HeaderSize h < 2 ^ 16
   /\ 0 <= LasHeader.PointRecordLength h < 2 ^ 16
   /\ 0 <= LasHeader.OffsetToPoints h < 2 ^ 32
   /\ 0 <= LasHeader.NumberOfVLRs h < 2 ^ 32
   /\ 0 <= LasHeader.NumberPoints h < 2 ^ 32)
  /\ GetPointCount lf = LasHeader.NumberPoints h
  /\ LasHeader.NumberPointsByReturn h = [0; 0; 0; 0; 0]
  /\ LasHeader.FileSourceID h = 0
  /\ (LasHeader.ProjectID1 h, LasHeader.ProjectID2 h, LasHeader.ProjectID3 h)
     = (0, 0, 0)
  /\ LasHeader.ProjectID4 h = [0; 0; 0; 0; 0; 0; 0; 0]
  /\ LasHeader.SystemID h = ""
  /\ LasHeader.GeneratingSoftware h = ""
  /\ (LasHeader.FileCreationDay h, LasHeader.FileCreationYear h) = (0, 0).
Proof.
  intros H h. subst h. unfold NewLazFile in H.
  destruct (negb (fileMode =? "r")%string && negb (fileMode =? "rh")%string);
    [discriminate H|].
  cbv beta iota zeta delta [bind] in H.
  destruct (Z.eq_dec (rc C t laszip_create) 0) as [Hrc|Hrc].
  2:{ destruct (NewLaszipReader_failed C t Hrc) as (m & u & Hnew & _).
      rewrite Hnew in H. discriminate H. }
  rewrite (NewLaszipReader_created C t Hrc) in H.
  match type of H with
  | context [OpenReader C ?r0 fileName ?u] =>
      destruct (OpenReader C r0 fileName u) as [[[err|] r1] t1|t1] eqn:Hop
  end; try discriminate H.
  destruct (OpenReader_ok_shape C _ _ _ _ _ Hop) as (Ht1 & Hr1).
  unfold convertHeader, GetHeader in H. rewrite Hr1 in H.
  cbn [LazFile.reader LazFile.with_reader LaszipReader.isOpen
       LaszipReader.header negb orb] in H.
  cbv beta iota zeta delta [bind peek ret] in H.
  injection H as <- <-.
  unfold GetPointCount.
  cbn [LazFile.Header LazFile.with_Header LasHeader.VersionMajor
       LasHeader.VersionMinor LasHeader.PointFormatID LasHeader.HeaderSize
       LasHeader.PointRecordLength LasHeader.OffsetToPoints
       LasHeader.NumberOfVLRs LasHeader.NumberPoints
       LasHeader.NumberPointsByReturn LasHeader.FileSourceID
       LasHeader.ProjectID1 LasHeader.ProjectID2 LasHeader.ProjectID3
       LasHeader.ProjectID4 LasHeader.SystemID LasHeader.GeneratingSoftware
       LasHeader.FileCreationDay LasHeader.FileCreationYear
       LaszipHeader.VersionMajor LaszipHeader.VersionMinor
       LaszipHeader.PointDataFormat LaszipHeader.HeaderSize
       LaszipHeader.PointDataRecordLength LaszipHeader.OffsetToPointData
       LaszipHeader.NumberOfVLRs LaszipHeader.NumberOfPointRecords].
  set (hm := header_mem C t1).
  pose proof (uint8_range (uint8 (laszip_header_struct.version_major hm))).
  pose proof (uint8_range (uint8 (laszip_header_struct.version_minor hm))).
  pose proof (uint8_range (uint8 (laszip_header_struct.point_data_format hm))).
  pose proof (uint16_range (laszip_header_struct.header_size hm)).
  pose proof (uint16_range (laszip_header_struct.point_data_record_length hm)).
  pose proof (uint32_range (laszip_header_struct.offset_to_point_data hm)).
  pose proof (uint32_range
                (laszip_header_struct.number_of_variable_length_records hm)).
  pose proof (uint32_range (laszip_header_struct.number_of_point_records hm)).
  unfold byte.
  rewrite !int_small by lia.
  split; [repeat split; lia|].
  split.
  { unfold uint32 at 1. apply Z.mod_small.
    pose proof (uint32_range (laszip_header_struct.number_of_point_records hm)).
    lia. }
  repeat split.
Qed.

(** X19, witness: the header of the handle opened on a working decoder. *)
Lemma NewLazFile_header_fields_witness :
  NewLazFile (healthy 0) "cloud.laz" "r" []
  = Returns (Ok (healthy_handle 0 0)) opening
  /\ GetPointCount (healthy_handle 0 0)
     = LasHeader.NumberPoints (LazFile.Header (healthy_handle 0 0))
  /\ LasHeader.NumberPointsByReturn (LazFile.Header (healthy_handle 0 0))
     = [0; 0; 0; 0; 0].
Proof.
  assert (H : NewLazFile (healthy 0) "cloud.laz" "r" []
              = Returns (Ok (healthy_handle 0 0)) opening) by reflexivity.
  destruct (NewLazFile_header_fields (healthy 0) _ _ _ _ _ H)
    as (_ & Hcount & Hreturns & _).
  split; [exact H|]. split; [exact Hcount|exact Hreturns].
Defined.
